(** * medkit core: spans, attributes, text annotations and text documents

    A shallow embedding of

      - medkit/core/text/span.py        (Span, ModifiedSpan)
      - medkit/core/attribute.py        (Attribute)
      - medkit/core/text/annotation.py  (TextAnnotation, Segment, Entity, Relation)
      - medkit/core/text/document.py    (TextDocument)

    Python integers are unbounded, so they are [Z].  A [str] is a [string];
    [len] is [String.length].  Dictionaries with string keys are
    [gmap string _].  A call that may raise returns a [result]; constructors
    that may draw a fresh identifier also thread the number of identifiers
    drawn so far. *)

From Stdlib Require Import ZArith String Ascii List Lia.
From stdpp Require Import base option list gmap strings.

Set Warnings "-register-all".
Open Scope Z_scope.

(** ** Exceptions and results *)

Inductive exn : Type :=
| TypeError_unexpected_keyword (callee kw : string)
| TypeError_missing_argument (callee param : string)
| TypeError_too_many_positional (callee : string)
| TypeError_multiple_values (callee param : string)
| TypeError_not_callable (what : string)
| AttributeError (cls attr : string)
| KeyError (key : string)
| ValueError (what : string)
| DuplicateIdError (uid : string)
| Unsupported (what : string).
(* [Unsupported] is not a Python exception: it marks a run that leaves the
   modelled fragment (a value outside the annotated type of a parameter, an
   inherited member that is not modelled). *)

Inductive result (A : Type) : Type :=
| Ok (a : A)
| Raise (e : exn).
Arguments Ok {A} a.
Arguments Raise {A} e.

#[global] Instance result_ret : MRet result := @Ok.
#[global] Instance result_bind : MBind result :=
  fun A B f r => match r with Ok a => f a | Raise e => Raise e end.
#[global] Instance result_fmap : FMap result :=
  fun A B f r => match r with Ok a => Ok (f a) | Raise e => Raise e end.

(** The call does not return a value. *)
Definition raises {A} (r : result A) : Prop :=
  match r with Ok _ => False | Raise _ => True end.

(** [[f(x) for x in l]]: evaluation stops at the first element that raises. *)
Fixpoint comprehension {A B} (f : A -> result B) (l : list A) : result (list B) :=
  match l with
  | [] => Ok []
  | x :: l' => y ← f x; ys ← comprehension f l'; Ok (y :: ys)
  end.

(** The identifier source.  [M A] is a computation that may raise and that
    may call [generate_id]; the state is the number of identifiers drawn. *)
Definition M (A : Type) : Type := nat -> result (A * nat).

#[global] Instance M_ret : MRet M := fun A a n => Ok (a, n).
#[global] Instance M_bind : MBind M :=
  fun A B f m n => match m n with Ok (a, n') => f a n' | Raise e => Raise e end.

Definition lift {A} (r : result A) : M A :=
  fun n => match r with Ok a => Ok (a, n) | Raise e => Raise e end.

(** ** Serialised values

    What [to_dict] produces and [from_dict] consumes, and what an
    [Attribute.value] may hold: scalars and nested lists and dicts. *)

Inductive pyval : Type :=
| VNone
| VBool (b : bool)
| VInt (n : Z)
| VStr (s : string)
| VList (l : list pyval)
| VDict (d : gmap string pyval).

(** [d[key]] *)
Definition getitem (d : gmap string pyval) (key : string) : result pyval :=
  match d !! key with
  | Some v => Ok v
  | None => Raise (KeyError key)
  end.

(** ** span.py *)

Module Span.

(** [class Span(NamedTuple)] with the fields [start] and [end]. *)
Record t : Type := mk { start : Z; end_ : Z }.

(** The [length] property. *)
Definition length (self : t) : Z := end_ self - start self.

End Span.

Module ModifiedSpan.

(** [@dataclasses.dataclass class ModifiedSpan] with the fields [length]
    and [replaced_spans]; the generated [__init__] stores its arguments. *)
Record t : Type := mk { length : Z; replaced_spans : list Span.t }.

End ModifiedSpan.

(** [AnySpanType = Union[Span, ModifiedSpan]] *)
Inductive AnySpanType : Type :=
| ASpan (s : Span.t)
| AModifiedSpan (m : ModifiedSpan.t).

Definition is_plain (s : AnySpanType) : bool :=
  match s with ASpan _ => true | AModifiedSpan _ => false end.

(** *** Attribute lookup on spans

    [self.name] finds the names the class bodies of span.py define.  Names
    that begin with an underscore and the public members a named tuple
    inherits from [tuple] belong to the Python runtime and are not
    modelled.  Every other name is an [AttributeError]. *)

Inductive attr_value : Type :=
| IntAttr (n : Z)
| SpansAttr (l : list Span.t).

Definition is_private (name : string) : bool :=
  match name with
  | String c _ => bool_decide (c = "_"%char)
  | EmptyString => false
  end.

Definition Span_getattr (self : Span.t) (name : string) : result attr_value :=
  if decide (name = "start") then Ok (IntAttr (Span.start self))
  else if decide (name = "end") then Ok (IntAttr (Span.end_ self))
  else if decide (name = "length") then Ok (IntAttr (Span.length self))
  else if is_private name || bool_decide (name ∈ ["count"; "index"])
  then Raise (Unsupported name)
  else Raise (AttributeError "Span" name).

Definition ModifiedSpan_getattr (self : ModifiedSpan.t) (name : string)
  : result attr_value :=
  if decide (name = "length") then Ok (IntAttr (ModifiedSpan.length self))
  else if decide (name = "replaced_spans")
  then Ok (SpansAttr (ModifiedSpan.replaced_spans self))
  else if is_private name then Raise (Unsupported name)
  else Raise (AttributeError "ModifiedSpan" name).

Definition AnySpan_getattr (s : AnySpanType) (name : string)
  : result attr_value :=
  match s with
  | ASpan sp => Span_getattr sp name
  | AModifiedSpan m => ModifiedSpan_getattr m name
  end.

(** [obj.name(...)]: the attribute is looked up first; the attributes of a
    span are plain values, so calling one that exists is a [TypeError]. *)
Definition call_attr {A} (what : string) (attr : result attr_value)
  : result A :=
  match attr with
  | Ok _ => Raise (TypeError_not_callable what)
  | Raise e => Raise e
  end.

(** [s.start] and [s.end] as integers. *)
Definition int_attr (s : AnySpanType) (name : string) : result Z :=
  v ← AnySpan_getattr s name;
  match v with
  | IntAttr n => Ok n
  | SpansAttr _ => Raise (Unsupported name)
  end.

(** ** The records of attribute.py, annotation.py and document.py *)

(** A class is identified by its canonical name. *)
Definition pyclass : Type := string.

(** [class Attribute]: [label], [value], [metadata], [uid]; [attr_class] is
    [type(self)]. *)
Record Attribute : Type := mkAttribute {
  attr_class : pyclass;
  attr_uid : string;
  attr_label : string;
  attr_value_ : pyval;
  attr_metadata : gmap string pyval }.

(** Modelled from the spec: the base class [Annotation] of
    medkit/core/annotation.py, which is not among the sources.  The spec
    gives a text annotation the fields [uid], [label], [attrs] (an ordered
    sequence of attributes) and [metadata]. *)
Record Annotation : Type := mkAnnotation {
  uid : string;
  label : string;
  attrs : list Attribute;
  metadata : gmap string pyval }.

(** [Entity] adds no field to [Segment]; the class of the instance tells
    them apart. *)
Inductive SegmentClass : Type := CSegment | CEntity.

Record Segment : Type := mkSegment {
  seg_class : SegmentClass;
  seg_ann : Annotation;
  spans : list AnySpanType;
  text : string }.

Record Relation : Type := mkRelation {
  rel_ann : Annotation;
  source_id : string;
  target_id : string }.

Inductive TextAnnotation : Type :=
| TASegment (s : Segment)
| TARelation (r : Relation).

Definition ann_of (a : TextAnnotation) : Annotation :=
  match a with
  | TASegment s => seg_ann s
  | TARelation r => rel_ann r
  end.

(** ** Calls

    A call binds its positional arguments to the leading parameters and its
    keyword arguments to the parameters they name.  More positional
    arguments than parameters, a keyword that names no parameter, a
    parameter that receives two values, or a parameter without default
    that receives none, is a [TypeError]. *)

Inductive pyarg : Type :=
| ANone
| AInt (n : Z)
| AStr (s : string)
| APlainSpans (l : list Span.t)
| AVal (v : pyval)
| AMeta (d : gmap string pyval)
| ASpans (l : list AnySpanType)
| AAttrs (l : list Attribute)
| AAnns (l : list TextAnnotation).

Record signature : Type := mkSignature {
  fn_name : string;
  fn_params : list string;
  fn_required : list string }.

Definition kwargs : Type := list (string * pyarg).

Definition bind_args (sg : signature) (args : list pyarg) (kw : kwargs)
  : result (gmap string pyarg) :=
  if (length (fn_params sg) <? length args)%nat
  then Raise (TypeError_too_many_positional (fn_name sg))
  else
    let positional := zip (fn_params sg) args in
    match List.find (fun k => negb (bool_decide (k ∈ fn_params sg))) (kw.*1) with
    | Some k => Raise (TypeError_unexpected_keyword (fn_name sg) k)
    | None =>
      match List.find (fun k => bool_decide (k ∈ positional.*1)) (kw.*1) with
      | Some k => Raise (TypeError_multiple_values (fn_name sg) k)
      | None =>
        let given := positional ++ kw in
        match List.find (fun p => negb (bool_decide (p ∈ given.*1)))
                        (fn_required sg) with
        | Some p => Raise (TypeError_missing_argument (fn_name sg) p)
        | None => Ok (list_to_map given)
        end
      end
    end.

(** A call that passes keywords only, as the constructor calls of the
    annotation classes in the sources do. *)
Definition bind_kwargs (sg : signature) (kw : kwargs)
  : result (gmap string pyarg) :=
  bind_args sg [] kw.

(** The value of a parameter; the optional parameters default to [None]. *)
Definition param (a : gmap string pyarg) (name : string) : pyarg :=
  default ANone (a !! name).

(** The annotated types of the parameters. *)
Definition as_str (what : string) (a : pyarg) : result string :=
  match a with AStr s => Ok s | _ => Raise (Unsupported what) end.

Definition as_int (what : string) (a : pyarg) : result Z :=
  match a with AInt n => Ok n | _ => Raise (Unsupported what) end.

Definition as_plain_spans (what : string) (a : pyarg) : result (list Span.t) :=
  match a with APlainSpans l => Ok l | _ => Raise (Unsupported what) end.

Definition as_val (what : string) (a : pyarg) : result pyval :=
  match a with
  | ANone => Ok VNone
  | AInt n => Ok (VInt n)
  | AStr s => Ok (VStr s)
  | AVal v => Ok v
  | AMeta d => Ok (VDict d)
  | _ => Raise (Unsupported what)
  end.

Definition as_meta (what : string) (a : pyarg) : result (gmap string pyval) :=
  match a with AMeta d => Ok d | _ => Raise (Unsupported what) end.

Definition as_spans (what : string) (a : pyarg) : result (list AnySpanType) :=
  match a with ASpans l => Ok l | _ => Raise (Unsupported what) end.

Definition as_attrs (what : string) (a : pyarg) : result (list Attribute) :=
  match a with AAttrs l => Ok l | _ => Raise (Unsupported what) end.

Definition as_anns (what : string) (a : pyarg) : result (list TextAnnotation) :=
  match a with AAnns l => Ok l | _ => Raise (Unsupported what) end.

(** A serialised value as a constructor argument. *)
Definition arg_of_val (v : pyval) : pyarg :=
  match v with
  | VNone => ANone
  | VInt n => AInt n
  | VStr s => AStr s
  | VDict d => AMeta d
  | _ => AVal v
  end.

(** ** span.py: construction

    [Span(start, end)] is the [__new__] of the named tuple and
    [ModifiedSpan(length, replaced_spans)] the [__init__] the dataclass
    decorator generates: each stores its two arguments. *)

Definition Span_sig : signature :=
  mkSignature "Span.__new__" ["start"; "end"] ["start"; "end"].

Definition Span_new (args : list pyarg) (kw : kwargs) : result Span.t :=
  a ← bind_args Span_sig args kw;
  start ← as_int "start" (param a "start");
  end_ ← as_int "end" (param a "end");
  Ok (Span.mk start end_).

Definition ModifiedSpan_sig : signature :=
  mkSignature "ModifiedSpan.__init__"
    ["length"; "replaced_spans"] ["length"; "replaced_spans"].

Definition ModifiedSpan_new (args : list pyarg) (kw : kwargs)
  : result ModifiedSpan.t :=
  a ← bind_args ModifiedSpan_sig args kw;
  length ← as_int "length" (param a "length");
  replaced_spans ← as_plain_spans "replaced_spans" (param a "replaced_spans");
  Ok (ModifiedSpan.mk length replaced_spans).

Section Medkit.

(** ** Identifiers *)

(** Modelled from the spec: [generate_id] of medkit/core/id.py, which is not
    among the sources, returns a universally unique opaque identifier.
    [fresh_id n] is the identifier the source of the process yields at its
    n-th draw. *)
Variable fresh_id : nat -> string.

Definition generate_id : M string := fun n => Ok (fresh_id n, S n).

(** [random.Random(seed).getrandbits(128)] of the Python runtime: the
    generator is seeded with a string and its first 128 bits are drawn, so
    the result is a function of the seed. *)
Variable getrandbits128 : string -> Z.

(** [str(uuid.UUID(int=n))]: 32 lower-case hexadecimal digits grouped
    8-4-4-4-12; a value outside 128 bits is a [ValueError]. *)
Definition hex_digit (d : Z) : ascii :=
  nth (Z.to_nat d) (list_ascii_of_string "0123456789abcdef") "0"%char.

Fixpoint hex_fixed (width : nat) (n : Z) : string :=
  match width with
  | O => EmptyString
  | S w => hex_fixed w (n / 16) +:+ String (hex_digit (n mod 16)) EmptyString
  end.

Definition uuid_str (n : Z) : result string :=
  if (0 <=? n) && (n <? 2 ^ 128) then
    let hex := hex_fixed 32 n in
    Ok (substring 0 8 hex +:+ "-" +:+ substring 8 4 hex +:+ "-" +:+
        substring 12 4 hex +:+ "-" +:+ substring 16 4 hex +:+ "-" +:+
        substring 20 12 hex)
  else Raise (ValueError "int is out of range (need a 128-bit value)").

(** ** attribute.py *)

(** Modelled from the spec: the helpers of medkit/core/dict_conv.py, which
    is not among the sources.  [to_dict] embeds the canonical name of the
    class of the instance under the key [class_name]; [from_dict] on a base
    type reads that name and, when it names a registered subclass other
    than the base, gets that subclass; an unrecognised name is not fatal
    and gives no subclass.  A registered subclass is represented by its own
    [from_dict]. *)
Definition class_name_key : string := "class_name".

Definition add_class_name_to_data_dict (cls : pyclass)
    (data_dict : gmap string pyval) : gmap string pyval :=
  <[class_name_key := VStr cls]> data_dict.

Definition subclass_registry (A : Type) : Type :=
  gmap string (gmap string pyval -> M A).

Definition get_subclass_for_data_dict {A} (registry : subclass_registry A)
    (cls : pyclass) (data_dict : gmap string pyval)
  : option (gmap string pyval -> M A) :=
  match data_dict !! class_name_key with
  | Some (VStr name) => if decide (name = cls) then None else registry !! name
  | _ => None
  end.

Definition Attribute_class : pyclass := "Attribute".

Definition Attribute_sig : signature :=
  mkSignature "Attribute.__init__"
    ["label"; "value"; "metadata"; "uid"] ["label"].

Definition Attribute_init (cls : pyclass) (kw : kwargs) : M Attribute :=
  a ← lift (bind_kwargs Attribute_sig kw);
  metadata ← match param a "metadata" with
              | ANone => mret ∅
              | m => lift (as_meta "metadata" m)
              end;
  uid ← match param a "uid" with
         | ANone => generate_id
         | u => lift (as_str "uid" u)
         end;
  label ← lift (as_str "label" (param a "label"));
  value ← lift (as_val "value" (param a "value"));
  mret (mkAttribute cls uid label value metadata).

Definition Attribute_to_dict (self : Attribute) : gmap string pyval :=
  let attribute_dict : gmap string pyval :=
    list_to_map [("uid", VStr (attr_uid self));
                 ("label", VStr (attr_label self));
                 ("value", attr_value_ self);
                 ("metadata", VDict (attr_metadata self))] in
  add_class_name_to_data_dict (attr_class self) attribute_dict.

Definition Attribute_from_dict (registry : subclass_registry Attribute)
    (cls : pyclass) (attribute_dict : gmap string pyval) : M Attribute :=
  match get_subclass_for_data_dict registry cls attribute_dict with
  | Some subclass_from_dict => subclass_from_dict attribute_dict
  | None =>
    uid ← lift (getitem attribute_dict "uid");
    label ← lift (getitem attribute_dict "label");
    value ← lift (getitem attribute_dict "value");
    metadata ← lift (getitem attribute_dict "metadata");
    Attribute_init cls [("uid", arg_of_val uid); ("label", arg_of_val label);
                        ("value", arg_of_val value);
                        ("metadata", arg_of_val metadata)]
  end.

(** ** annotation.py: constructors *)

(** Modelled from the spec: [Annotation.__init__].  Its parameters are the
    keywords [TextAnnotation.__init__] passes on; [label] is required, the
    identifier defaults to a generated one, [attrs] to a fresh empty list
    and [metadata] to a fresh empty dict. *)
Definition Annotation_sig : signature :=
  mkSignature "Annotation.__init__"
    ["label"; "attrs"; "ann_id"; "metadata"] ["label"].

Definition Annotation_init (kw : kwargs) : M Annotation :=
  a ← lift (bind_kwargs Annotation_sig kw);
  ann_id ← match param a "ann_id" with
            | ANone => generate_id
            | u => lift (as_str "ann_id" u)
            end;
  attrs ← match param a "attrs" with
           | ANone => mret []
           | l => lift (as_attrs "attrs" l)
           end;
  metadata ← match param a "metadata" with
              | ANone => mret ∅
              | m => lift (as_meta "metadata" m)
              end;
  label ← lift (as_str "label" (param a "label"));
  mret (mkAnnotation ann_id label attrs metadata).

Definition TextAnnotation_sig : signature :=
  mkSignature "TextAnnotation.__init__"
    ["label"; "attrs"; "ann_id"; "metadata"] ["label"].

Definition TextAnnotation_init (kw : kwargs) : M Annotation :=
  a ← lift (bind_kwargs TextAnnotation_sig kw);
  Annotation_init [("label", param a "label"); ("attrs", param a "attrs");
                   ("ann_id", param a "ann_id");
                   ("metadata", param a "metadata")].

Definition Segment_sig : signature :=
  mkSignature "Segment.__init__"
    ["label"; "spans"; "text"; "attrs"; "ann_id"; "metadata"]
    ["label"; "spans"; "text"].

Definition Segment_init (cls : SegmentClass) (kw : kwargs) : M Segment :=
  a ← lift (bind_kwargs Segment_sig kw);
  base ← TextAnnotation_init
            [("ann_id", param a "ann_id"); ("label", param a "label");
             ("attrs", param a "attrs"); ("metadata", param a "metadata")];
  spans ← lift (as_spans "spans" (param a "spans"));
  text ← lift (as_str "text" (param a "text"));
  mret (mkSegment cls base spans text).

Definition Entity_sig : signature :=
  mkSignature "Entity.__init__"
    ["label"; "spans"; "text"; "attrs"; "entity_id"; "metadata"]
    ["label"; "spans"; "text"].

Definition Entity_init (kw : kwargs) : M Segment :=
  a ← lift (bind_kwargs Entity_sig kw);
  Segment_init CEntity
    [("label", param a "label"); ("spans", param a "spans");
     ("text", param a "text"); ("attrs", param a "attrs");
     ("ann_id", param a "entity_id"); ("metadata", param a "metadata")].

Definition Relation_sig : signature :=
  mkSignature "Relation.__init__"
    ["label"; "source_id"; "target_id"; "attrs"; "rel_id"; "metadata"]
    ["label"; "source_id"; "target_id"].

Definition Relation_init (kw : kwargs) : M Relation :=
  a ← lift (bind_kwargs Relation_sig kw);
  base ← TextAnnotation_init
            [("ann_id", param a "rel_id"); ("label", param a "label");
             ("attrs", param a "attrs"); ("metadata", param a "metadata")];
  source_id ← lift (as_str "source_id" (param a "source_id"));
  target_id ← lift (as_str "target_id" (param a "target_id"));
  mret (mkRelation base source_id target_id).

(** ** annotation.py: serialisation *)

Definition SegmentClass_name (c : SegmentClass) : pyclass :=
  match c with CSegment => "Segment" | CEntity => "Entity" end.

Definition Relation_class : pyclass := "Relation".

(** Modelled from the spec: [Annotation.to_dict], which the spec gives the
    entries [class_name], [uid], [label], [attrs] (each attribute
    serialised) and [metadata]. *)
Definition Annotation_to_dict (cls : pyclass) (self : Annotation)
  : gmap string pyval :=
  let data : gmap string pyval :=
    list_to_map [("uid", VStr (uid self));
                 ("label", VStr (label self));
                 ("attrs", VList (map (fun a => VDict (Attribute_to_dict a))
                                      (attrs self)));
                 ("metadata", VDict (metadata self))] in
  add_class_name_to_data_dict cls data.

Definition Segment_to_dict (self : Segment) : result (gmap string pyval) :=
  let data := Annotation_to_dict (SegmentClass_name (seg_class self))
                                 (seg_ann self) in
  spans ← comprehension
             (fun s => call_attr "to_dict" (AnySpan_getattr s "to_dict"))
             (spans self);
  Ok (<["text" := VStr (text self)]> (<["spans" := VList spans]> data)).

Definition Relation_to_dict (self : Relation) : gmap string pyval :=
  let data := Annotation_to_dict Relation_class (rel_ann self) in
  <["target_id" := VStr (target_id self)]>
    (<["source_id" := VStr (source_id self)]> data).

(** ** document.py *)

(** Modelled from the spec: [TextAnnotationContainer] of
    medkit/core/text/annotation_container.py, which is not among the
    sources.  It owns the map from uid to annotation and an index from label
    to the uids in insertion order; the raw segment is put in at
    construction; [add] fails on a uid the container already holds. *)
Record TextAnnotationContainer : Type := mkContainer {
  doc_id : string;
  annotations : gmap string TextAnnotation;
  ids_by_label : gmap string (list string) }.

Definition TextAnnotationContainer_add (c : TextAnnotationContainer)
    (ann : TextAnnotation) : result TextAnnotationContainer :=
  let u := uid (ann_of ann) in
  let l := label (ann_of ann) in
  match annotations c !! u with
  | Some _ => Raise (DuplicateIdError u)
  | None =>
    Ok (mkContainer (doc_id c) (<[u := ann]> (annotations c))
          (<[l := default [] (ids_by_label c !! l) ++ [u]]> (ids_by_label c)))
  end.

Definition TextAnnotationContainer_init (doc_id : string)
    (raw_segment : Segment) : TextAnnotationContainer :=
  mkContainer doc_id
    {[ uid (seg_ann raw_segment) := TASegment raw_segment ]}
    {[ label (seg_ann raw_segment) := [uid (seg_ann raw_segment)] ]}.

Record TextDocument : Type := mkTextDocument {
  doc_uid : string;
  doc_metadata : gmap string pyval;
  raw_segment : Segment;
  anns : TextAnnotationContainer }.

Definition RAW_LABEL : string := "RAW_TEXT".

Definition len (s : string) : Z := Z.of_nat (String.length s).

(** The identifier derived from the document identifier, as
    [_generate_raw_segment] computes it before it builds the segment. *)
Definition raw_segment_uid (doc_id : string) : result string :=
  uuid_str (getrandbits128 doc_id).

Definition _generate_raw_segment (text doc_id : string) : M Segment :=
  uid ← lift (raw_segment_uid doc_id);
  span ← lift (Span_new [AInt 0; AInt (len text)] []);
  Segment_init CSegment
    [("label", AStr RAW_LABEL);
     ("spans", ASpans [ASpan span]);
     ("text", AStr text);
     ("uid", AStr uid)].

Fixpoint add_all (c : TextAnnotationContainer) (anns : list TextAnnotation)
  : result TextAnnotationContainer :=
  match anns with
  | [] => Ok c
  | ann :: rest => c' ← TextAnnotationContainer_add c ann; add_all c' rest
  end.

Definition TextDocument_sig : signature :=
  mkSignature "TextDocument.__init__"
    ["text"; "anns"; "metadata"; "uid"] ["text"].

Definition TextDocument_init (kw : kwargs) : M TextDocument :=
  a ← lift (bind_kwargs TextDocument_sig kw);
  anns ← match param a "anns" with
          | ANone => mret []
          | l => lift (as_anns "anns" l)
          end;
  metadata ← match param a "metadata" with
              | ANone => mret ∅
              | m => lift (as_meta "metadata" m)
              end;
  uid ← match param a "uid" with
         | ANone => generate_id
         | u => lift (as_str "uid" u)
         end;
  text ← lift (as_str "text" (param a "text"));
  raw_segment ← _generate_raw_segment text uid;
  container ← lift (add_all (TextAnnotationContainer_init uid raw_segment) anns);
  mret (mkTextDocument uid metadata raw_segment container).

(** The [text] property. *)
Definition TextDocument_text (self : TextDocument) : string :=
  text (raw_segment self).

(** ** annotation.py: [Segment.get_snippet] *)

(** Modelled from the spec: [normalize_spans] of
    medkit/core/text/span_utils.py, which is not among the sources.  It
    merges adjacent plain spans that are contiguous ([a.end == b.start])
    into one span, keeps the order, and never merges across a
    [ModifiedSpan]. *)
Fixpoint normalize_spans (spans : list AnySpanType) : list AnySpanType :=
  match spans with
  | [] => []
  | s :: rest =>
    match s, normalize_spans rest with
    | ASpan a, ASpan b :: tl =>
      if Span.end_ a =? Span.start b
      then ASpan (Span.mk (Span.start a) (Span.end_ b)) :: tl
      else s :: ASpan b :: tl
    | _, r => s :: r
    end
  end.

(** [min] and [max] over a generator: empty input is a [ValueError]. *)
Definition py_min (l : list Z) : result Z :=
  match l with
  | [] => Raise (ValueError "min() arg is an empty sequence")
  | x :: r => Ok (fold_left Z.min r x)
  end.

Definition py_max (l : list Z) : result Z :=
  match l with
  | [] => Raise (ValueError "max() arg is an empty sequence")
  | x :: r => Ok (fold_left Z.max r x)
  end.

(** [s[a:b]]: a negative index counts from the end, and both indices are
    clipped to the string. *)
Definition clamp_index (n i : Z) : Z :=
  if i <? 0 then Z.max (i + n) 0 else Z.min i n.

Definition py_slice (s : string) (a b : Z) : string :=
  let a' := clamp_index (len s) a in
  let b' := clamp_index (len s) b in
  substring (Z.to_nat a') (Z.to_nat (b' - a')) s.

Definition get_snippet (self : Segment) (doc : TextDocument)
    (max_extend_length : Z) : result string :=
  let spans_normalized := normalize_spans (spans self) in
  starts ← comprehension (fun s => int_attr s "start") spans_normalized;
  start ← py_min starts;
  ends ← comprehension (fun s => int_attr s "end") spans_normalized;
  end_ ← py_max ends;
  let start_extended := Z.max (start - max_extend_length / 2) 0 in
  let remaining_max_extend_length :=
    max_extend_length - (start - start_extended) in
  let end_extended :=
    Z.min (end_ + remaining_max_extend_length) (len (TextDocument_text doc)) in
  Ok (py_slice (TextDocument_text doc) start_extended end_extended).

End Medkit.

(** ** Annotations as objects

    After its construction an annotation is an object that its clients
    share: [__init__] keeps the list it is given for [spans], and [attrs]
    and [metadata] are containers that are updated in place.  Here the
    objects live in a heap.  A field, a list slot or a dict entry holds an
    item: a value that cannot change (a number, a string, a [Span]), or a
    reference to an object (a list, a dict, an instance).  A
    [ModifiedSpan] is an instance with the fields [length] and
    [replaced_spans].  An attribute in [attrs] is kept as a value, since
    nothing below looks inside one.  A program returns the heap it leaves,
    also when it raises. *)

Definition loc : Type := nat.

Inductive pyitem : Type :=
| INone
| IInt (n : Z)
| IStr (s : string)
| IVal (v : pyval)
| ISpan (s : Span.t)
| IAttr (a : Attribute)
| IRef (l : loc).

Inductive pyobj : Type :=
| OList (items : list pyitem)
| ODict (entries : gmap string pyitem)
| OInstance (cls : pyclass) (fields : gmap string pyitem).

Record heap : Type := mkHeap {
  objs : gmap loc pyobj;
  next_loc : loc;
  ids_drawn : nat }.

Definition Prog (A : Type) : Type := heap -> heap * result A.

#[global] Instance Prog_ret : MRet Prog := fun A a h => (h, Ok a).
#[global] Instance Prog_bind : MBind Prog :=
  fun A B f m h =>
    match m h with
    | (h', Ok a) => f a h'
    | (h', Raise e) => (h', Raise e)
    end.
#[global] Instance Prog_fmap : FMap Prog :=
  fun A B f m h =>
    match m h with
    | (h', Ok a) => (h', Ok (f a))
    | (h', Raise e) => (h', Raise e)
    end.

Definition lift_h {A} (r : result A) : Prog A := fun h => (h, r).

Fixpoint each {A B} (f : A -> Prog B) (l : list A) : Prog (list B) :=
  match l with
  | [] => mret []
  | x :: l' => y ← f x; ys ← each f l'; mret (y :: ys)
  end.

(** *** The heap operations *)

(** A new object gets the next location. *)
Definition alloc (o : pyobj) : Prog loc :=
  fun h => (mkHeap (<[next_loc h := o]> (objs h)) (S (next_loc h))
                   (ids_drawn h),
            Ok (next_loc h)).

Definition load (l : loc) : Prog pyobj :=
  fun h => (h, match objs h !! l with
               | Some o => Ok o
               | None => Raise (Unsupported "dangling reference")
               end).

Definition store (l : loc) (o : pyobj) : Prog unit :=
  fun h => (mkHeap (<[l := o]> (objs h)) (next_loc h) (ids_drawn h), Ok tt).

Definition generate_id_h (fresh_id : nat -> string) : Prog string :=
  fun h => (mkHeap (objs h) (next_loc h) (S (ids_drawn h)),
            Ok (fresh_id (ids_drawn h))).

Definition deref (what : string) (v : pyitem) : Prog loc :=
  match v with
  | IRef l => mret l
  | _ => lift_h (Raise (Unsupported what))
  end.

(** The names a class defines besides the fields of its instances; reading
    one gives a bound method or a property, which the model does not
    have. *)
Definition class_members_of (cls : pyclass) : list string :=
  if decide (cls = "Segment") then ["to_dict"; "get_snippet"]
  else if decide (cls = "Entity") then ["to_dict"; "get_snippet"]
  else if decide (cls = "Relation") then ["to_dict"]
  else if decide (cls = "TextDocument") then ["text"; "to_dict"; "from_dict"]
  else [].

(** [obj.name] for an instance. *)
Definition getattr (l : loc) (name : string) : Prog pyitem :=
  o ← load l;
  match o with
  | OInstance cls fields =>
    match fields !! name with
    | Some v => mret v
    | None =>
      if is_private name || bool_decide (name ∈ class_members_of cls)
      then lift_h (Raise (Unsupported name))
      else lift_h (Raise (AttributeError cls name))
    end
  | _ => lift_h (Raise (Unsupported name))
  end.

(** [obj.name = v] for an instance. *)
Definition setattr (l : loc) (name : string) (v : pyitem) : Prog unit :=
  o ← load l;
  match o with
  | OInstance cls fields =>
    if bool_decide (name ∈ class_members_of cls)
    then lift_h (Raise (Unsupported name))
    else store l (OInstance cls (<[name := v]> fields))
  | _ => lift_h (Raise (Unsupported name))
  end.

Definition list_items (l : loc) : Prog (list pyitem) :=
  o ← load l;
  match o with
  | OList items => mret items
  | _ => lift_h (Raise (Unsupported "not a list"))
  end.

(** [l.append(v)] *)
Definition list_append (l : loc) (v : pyitem) : Prog unit :=
  o ← load l;
  match o with
  | OList items => store l (OList (items ++ [v]))
  | _ => lift_h (Raise (Unsupported "append"))
  end.

(** [d[key] = v] *)
Definition dict_setitem (l : loc) (key : string) (v : pyitem) : Prog unit :=
  o ← load l;
  match o with
  | ODict entries => store l (ODict (<[key := v]> entries))
  | _ => lift_h (Raise (Unsupported "item assignment"))
  end.

(** [s.name] for an element of a span list. *)
Definition item_getattr (s : pyitem) (name : string) : Prog pyitem :=
  match s with
  | ISpan sp =>
    lift_h (v ← Span_getattr sp name;
            match v with
            | IntAttr n => Ok (IInt n)
            | SpansAttr _ => Raise (Unsupported name)
            end)
  | IRef l => getattr l name
  | _ => lift_h (Raise (Unsupported name))
  end.

(** [s.name()]: the attributes that exist are plain values. *)
Definition item_call (s : pyitem) (name : string) : Prog pyitem :=
  _ ← item_getattr s name;
  lift_h (Raise (TypeError_not_callable name)).

Definition item_int (what : string) (v : pyitem) : Prog Z :=
  match v with
  | IInt n => mret n
  | _ => lift_h (Raise (Unsupported what))
  end.

Definition item_str (what : string) (v : pyitem) : Prog string :=
  match v with
  | IStr s => mret s
  | _ => lift_h (Raise (Unsupported what))
  end.

(** *** Construction *)

(** Modelled from the spec: [Annotation.__init__] sets [uid] (generated
    when none is given), [label], [attrs] (a fresh empty list when none is
    given) and [metadata] (a fresh empty dict when none is given). *)
Definition Annotation_init_h (fresh_id : nat -> string) (self : loc)
    (label : string) (attrs : option loc) (ann_id : option string)
    (metadata : option loc) : Prog unit :=
  uid ← match ann_id with
         | Some u => mret u
         | None => generate_id_h fresh_id
         end;
  attrs_ref ← match attrs with
               | Some l => mret l
               | None => alloc (OList [])
               end;
  metadata_ref ← match metadata with
                  | Some l => mret l
                  | None => alloc (ODict ∅)
                  end;
  setattr self "uid" (IStr uid);;
  setattr self "label" (IStr label);;
  setattr self "attrs" (IRef attrs_ref);;
  setattr self "metadata" (IRef metadata_ref).

(** [Segment.__init__] and, with the class [Entity], [Entity.__init__]:
    [self.spans = spans] keeps the reference it is given. *)
Definition Segment_init_h (fresh_id : nat -> string) (cls : SegmentClass)
    (label : string) (spans : loc) (text : string) (attrs : option loc)
    (ann_id : option string) (metadata : option loc) : Prog loc :=
  self ← alloc (OInstance (SegmentClass_name cls) ∅);
  Annotation_init_h fresh_id self label attrs ann_id metadata;;
  setattr self "spans" (IRef spans);;
  setattr self "text" (IStr text);;
  mret self.

Definition Relation_init_h (fresh_id : nat -> string) (label : string)
    (source_id target_id : string) (attrs : option loc)
    (rel_id : option string) (metadata : option loc) : Prog loc :=
  self ← alloc (OInstance Relation_class ∅);
  Annotation_init_h fresh_id self label attrs rel_id metadata;;
  setattr self "source_id" (IStr source_id);;
  setattr self "target_id" (IStr target_id);;
  mret self.

(** *** The methods *)

(** [a.to_dict()] for an element of [attrs]: an attribute gets its dict. *)
Definition attr_to_dict_h (a : pyitem) : Prog pyitem :=
  match a with
  | IAttr x => IRef <$> alloc (ODict (IVal <$> Attribute_to_dict x))
  | other => item_call other "to_dict"
  end.

(** Modelled from the spec: [Annotation.to_dict] builds a new dict with
    the class name, [uid], [label], the serialised attributes and
    [metadata]. *)
Definition Annotation_to_dict_h (self : loc) : Prog loc :=
  o ← load self;
  cls ← match o with
         | OInstance cls _ => mret cls
         | _ => lift_h (Raise (Unsupported "self"))
         end;
  uid ← getattr self "uid";
  label ← getattr self "label";
  attrs_ref ← getattr self "attrs" ≫= deref "attrs";
  attrs ← list_items attrs_ref;
  attr_dicts ← each attr_to_dict_h attrs;
  attrs_list ← alloc (OList attr_dicts);
  metadata ← getattr self "metadata";
  alloc (ODict (<[class_name_key := IStr cls]>
                  (list_to_map [("uid", uid); ("label", label);
                                ("attrs", IRef attrs_list);
                                ("metadata", metadata)]))).

Definition Segment_to_dict_h (self : loc) : Prog loc :=
  data ← Annotation_to_dict_h self;
  spans_ref ← getattr self "spans" ≫= deref "spans";
  items ← list_items spans_ref;
  spans ← each (fun s => item_call s "to_dict") items;
  spans_list ← alloc (OList spans);
  text ← getattr self "text";
  dict_setitem data "spans" (IRef spans_list);;
  dict_setitem data "text" text;;
  mret data.

Definition Relation_to_dict_h (self : loc) : Prog loc :=
  data ← Annotation_to_dict_h self;
  source_id ← getattr self "source_id";
  target_id ← getattr self "target_id";
  dict_setitem data "source_id" source_id;;
  dict_setitem data "target_id" target_id;;
  mret data.

(** Modelled from the spec: [normalize_spans] returns a new list in which
    adjacent contiguous plain spans are merged; a [ModifiedSpan] stays as
    it is. *)
Fixpoint normalize_items (l : list pyitem) : list pyitem :=
  match l with
  | [] => []
  | s :: rest =>
    match s, normalize_items rest with
    | ISpan a, ISpan b :: tl =>
      if Span.end_ a =? Span.start b
      then ISpan (Span.mk (Span.start a) (Span.end_ b)) :: tl
      else s :: ISpan b :: tl
    | _, r => s :: r
    end
  end.

Definition normalize_spans_h (spans : loc) : Prog loc :=
  items ← list_items spans;
  alloc (OList (normalize_items items)).

(** The [text] property of a document. *)
Definition TextDocument_text_h (doc : loc) : Prog string :=
  raw_segment ← getattr doc "raw_segment" ≫= deref "raw_segment";
  getattr raw_segment "text" ≫= item_str "text".

Definition get_snippet_h (self doc : loc) (max_extend_length : Z)
  : Prog string :=
  spans_ref ← getattr self "spans" ≫= deref "spans";
  spans_normalized ← normalize_spans_h spans_ref ≫= list_items;
  starts ← each (fun s => item_getattr s "start" ≫= item_int "start")
                 spans_normalized;
  start ← lift_h (py_min starts);
  ends ← each (fun s => item_getattr s "end" ≫= item_int "end")
               spans_normalized;
  end_ ← lift_h (py_max ends);
  let start_extended := Z.max (start - max_extend_length / 2) 0 in
  let remaining_max_extend_length :=
    max_extend_length - (start - start_extended) in
  text_for_len ← TextDocument_text_h doc;
  let end_extended :=
    Z.min (end_ + remaining_max_extend_length) (len text_for_len) in
  text ← TextDocument_text_h doc;
  mret (py_slice text start_extended end_extended).

(** *** What a client can do with an annotation

    The calls the data model allows: the methods, [ann.attrs.append(a)]
    and [ann.metadata[key] = v]. *)
Inductive api_call : Type :=
| Call_to_dict
| Call_get_snippet (doc : loc) (max_extend_length : Z)
| Attrs_append (a : pyitem)
| Metadata_setitem (key : string) (v : pyitem).

(** [self.to_dict()] and [self.get_snippet(doc, n)] run the method of the
    class of [self], unless the instance has a field of that name, which
    would be called in its place. *)
Definition to_dict_h (self : loc) : Prog loc :=
  o ← load self;
  match o with
  | OInstance cls fields =>
    if fields !! "to_dict" is Some _
    then lift_h (Raise (Unsupported "to_dict"))
    else if decide (cls = "Segment") then Segment_to_dict_h self
    else if decide (cls = "Entity") then Segment_to_dict_h self
    else if decide (cls = "Relation") then Relation_to_dict_h self
    else lift_h (Raise (Unsupported "to_dict"))
  | _ => lift_h (Raise (Unsupported "to_dict"))
  end.

Definition get_snippet_method (self doc : loc) (max_extend_length : Z)
  : Prog string :=
  o ← load self;
  match o with
  | OInstance cls fields =>
    if fields !! "get_snippet" is Some _
    then lift_h (Raise (Unsupported "get_snippet"))
    else if decide (cls = "Segment")
    then get_snippet_h self doc max_extend_length
    else if decide (cls = "Entity")
    then get_snippet_h self doc max_extend_length
    else if decide (cls = "Relation")
    then lift_h (Raise (AttributeError cls "get_snippet"))
    else lift_h (Raise (Unsupported "get_snippet"))
  | _ => lift_h (Raise (Unsupported "get_snippet"))
  end.

Definition run_call (c : api_call) (self : loc) : Prog pyitem :=
  match c with
  | Call_to_dict => IRef <$> to_dict_h self
  | Call_get_snippet doc n => IStr <$> get_snippet_method self doc n
  | Attrs_append a =>
    attrs ← getattr self "attrs" ≫= deref "attrs";
    list_append attrs a;; mret INone
  | Metadata_setitem key v =>
    metadata ← getattr self "metadata" ≫= deref "metadata";
    dict_setitem metadata key v;; mret INone
  end.

(** Everything a client holding references can do: the calls above, the
    assignments [ann.name = v] and [ann.name = [v1, ..., vn]], and
    [l.append(v)] on a list it holds. *)
Inductive client_op : Type :=
| Api (c : api_call)
| Assign (name : string) (v : pyitem)
| Assign_list (name : string) (items : list pyitem)
| Append_to (l : loc) (v : pyitem).

Definition run_client (op : client_op) (self : loc) : Prog pyitem :=
  match op with
  | Api c => run_call c self
  | Assign name v => setattr self name v;; mret INone
  | Assign_list name items =>
    l ← alloc (OList items); setattr self name (IRef l);; mret INone
  | Append_to l v => list_append l v;; mret INone
  end.

(** *** What is read off an annotation *)

(** The spans a client reads through a span list. *)
Definition read_plain (v : pyitem) : option Span.t :=
  match v with ISpan s => Some s | _ => None end.

Definition read_span (h : heap) (v : pyitem) : option AnySpanType :=
  match v with
  | ISpan s => Some (ASpan s)
  | IRef l =>
    match objs h !! l with
    | Some (OInstance _ fields) =>
      match fields !! "length", fields !! "replaced_spans" with
      | Some (IInt n), Some (IRef l') =>
        match objs h !! l' with
        | Some (OList items) =>
          replaced ← mapM read_plain items;
          Some (AModifiedSpan (ModifiedSpan.mk n replaced))
        | _ => None
        end
      | _, _ => None
      end
    | _ => None
    end
  | _ => None
  end.

Definition read_spans (h : heap) (l : loc) : option (list AnySpanType) :=
  match objs h !! l with
  | Some (OList items) => mapM (read_span h) items
  | _ => None
  end.

(** The class, the uid and the label and, for a segment or an entity, the
    spans and the text. *)
Inductive identity : Type :=
| SegmentIdentity (cls : pyclass) (uid label : string)
    (spans : list AnySpanType) (text : string)
| RelationIdentity (cls : pyclass) (uid label : string).

Definition identity_at (h : heap) (self : loc) : option identity :=
  match objs h !! self with
  | Some (OInstance cls fields) =>
    match fields !! "uid", fields !! "label" with
    | Some (IStr uid), Some (IStr label) =>
      match fields !! "spans", fields !! "text" with
      | Some (IRef l), Some (IStr text) =>
        spans ← read_spans h l;
        Some (SegmentIdentity cls uid label spans text)
      | None, None => Some (RelationIdentity cls uid label)
      | _, _ => None
      end
    | _, _ => None
    end
  | _ => None
  end.

(** The locations [identity_at] reads. *)
Definition span_locs (h : heap) (v : pyitem) : list loc :=
  match v with
  | IRef l =>
    l :: match objs h !! l with
         | Some (OInstance _ fields) =>
           match fields !! "replaced_spans" with
           | Some (IRef l') => [l']
           | _ => []
           end
         | _ => []
         end
  | _ => []
  end.

Definition footprint (h : heap) (self : loc) : list loc :=
  self ::
  match objs h !! self with
  | Some (OInstance _ fields) =>
    match fields !! "spans" with
    | Some (IRef l) =>
      l :: match objs h !! l with
           | Some (OList items) => flat_map (span_locs h) items
           | _ => []
           end
    | _ => []
    end
  | _ => []
  end.

(** Every object sits below the next free location. *)
Definition allocated (h : heap) : Prop :=
  forall l o, objs h !! l = Some o -> (l < next_loc h)%nat.

(** The containers that are updated in place are not among the objects
    the spans are read from. *)
Definition separated (h : heap) (self : loc) : Prop :=
  forall cls fields name l,
    objs h !! self = Some (OInstance cls fields) ->
    name = "attrs" \/ name = "metadata" ->
    fields !! name = Some (IRef l) ->
    l ∉ footprint h self.

(** ** attribute.py: [copy] *)


(** [to_brat] and [to_spacy] return the value. *)
Definition Attribute_to_brat (self : Attribute) : pyval := attr_value_ self.

Definition Attribute_to_spacy (self : Attribute) : pyval := attr_value_ self.

(** ** document.py: [from_dict] *)

(** A list comprehension whose element computation may draw identifiers. *)
Fixpoint comprehensionM {A B} (f : A -> M B) (l : list A) : M (list B) :=
  match l with
  | [] => mret []
  | x :: l' => y ← f x; ys ← comprehensionM f l'; mret (y :: ys)
  end.

(** [TextDocument.from_dict] is a class method: it ends in a call of the
    class it is called on, [cls], which runs the constructor of [cls],
    [cls_init].  For [TextDocument], and for a subclass that inherits
    [__init__], [cls_init] is [TextDocument_init]; a subclass that defines
    [__init__] brings its own.  Two things the method uses are not among
    the sources and are taken as given: [has_same_from_dict] tells whether
    [cls.from_dict] is the [from_dict] of [TextDocument] itself, and
    [TextAnnotation_from_dict] is the loader of one annotation.
    [doc_dict.get("anns", [])] must be a list. *)
Definition TextDocument_from_dict
    (TextAnnotation_from_dict : pyval -> M TextAnnotation)
    (registry : subclass_registry TextDocument)
    (cls : pyclass) (cls_init : kwargs -> M TextDocument)
    (has_same_from_dict : bool)
    (doc_dict : gmap string pyval) : M TextDocument :=
  match (if negb has_same_from_dict
         then get_subclass_for_data_dict registry cls doc_dict
         else None) with
  | Some subclass_from_dict => subclass_from_dict doc_dict
  | None =>
    serialised ← lift (match doc_dict !! "anns" with
                        | None => Ok []
                        | Some (VList l) => Ok l
                        | Some _ => Raise (Unsupported "anns")
                        end);
    anns ← comprehensionM TextAnnotation_from_dict serialised;
    uid ← lift (getitem doc_dict "uid");
    text ← lift (getitem doc_dict "text");
    metadata ← lift (getitem doc_dict "metadata");
    cls_init
      [("uid", arg_of_val uid); ("text", arg_of_val text);
       ("anns", AAnns anns); ("metadata", arg_of_val metadata)]
  end.

(** ** More exceptions

    The exceptions of the modules below that the core model does not
    need. *)

Inductive pyexn : Type :=
| Core (e : exn)
| IndexError (what : string)
| TypeError_not_a_mapping (callee : string)
| TypeError_not_iterable (callee : string).

Inductive attempt (A : Type) : Type :=
| Done (a : A)
| Fail (e : pyexn).
Arguments Done {A} a.
Arguments Fail {A} e.

#[global] Instance attempt_ret : MRet attempt := @Done.
#[global] Instance attempt_bind : MBind attempt :=
  fun A B f r => match r with Done a => f a | Fail e => Fail e end.

#[global] Instance attempt_fmap : FMap attempt :=
  fun A B f r => match r with Done a => Done (f a) | Fail e => Fail e end.

Definition of_result {A} (r : result A) : attempt A :=
  match r with Ok a => Done a | Raise e => Fail (Core e) end.

(** [[f(x) for x in l]] *)
Fixpoint attempt_all {A B} (f : A -> attempt B) (l : list A)
  : attempt (list B) :=
  match l with
  | [] => Done []
  | x :: l' => y ← f x; ys ← attempt_all f l'; Done (y :: ys)
  end.

(** ** io/_doccano_utils.py

    The dataclasses of a doccano export and their [from_dict].  A line of
    the export is a dict with string keys.  The fields have their
    annotated types; a dict of the model keeps no insertion order, so
    [entities] and [relations] are maps from the identifier, and a call
    that unpacks a dict with several unexpected keys names one of them. *)

Record DoccanoEntity : Type := mkDoccanoEntity {
  de_id : Z;
  de_start_offset : Z;
  de_end_offset : Z;
  de_label : string }.

Record DoccanoEntityTuple : Type := mkDoccanoEntityTuple {
  dt_start_offset : Z;
  dt_end_offset : Z;
  dt_label : string }.

Record DoccanoRelation : Type := mkDoccanoRelation {
  dr_id : Z;
  dr_from_id : Z;
  dr_to_id : Z;
  dr_type : string }.

Record DoccanoDocRelationExtraction : Type := mkDoccanoDocRelationExtraction {
  re_id : option Z;
  re_text : string;
  re_entities : gmap Z DoccanoEntity;
  re_relations : gmap Z DoccanoRelation;
  re_metadata : gmap string pyval }.

Record DoccanoDocSeqLabeling : Type := mkDoccanoDocSeqLabeling {
  sl_text : string;
  sl_entities : list DoccanoEntityTuple;
  sl_metadata : gmap string pyval }.

Record DoccanoDocTextClassification : Type := mkDoccanoDocTextClassification {
  tc_text : string;
  tc_label : string;
  tc_metadata : gmap string pyval }.

Definition DoccanoEntity_sig : signature :=
  mkSignature "DoccanoEntity.__init__"
    ["id"; "start_offset"; "end_offset"; "label"]
    ["id"; "start_offset"; "end_offset"; "label"].

Definition DoccanoEntity_new (args : list pyarg) (kw : kwargs)
  : result DoccanoEntity :=
  a ← bind_args DoccanoEntity_sig args kw;
  id ← as_int "id" (param a "id");
  start_offset ← as_int "start_offset" (param a "start_offset");
  end_offset ← as_int "end_offset" (param a "end_offset");
  label ← as_str "label" (param a "label");
  Ok (mkDoccanoEntity id start_offset end_offset label).

Definition DoccanoEntityTuple_sig : signature :=
  mkSignature "DoccanoEntityTuple.__init__"
    ["start_offset"; "end_offset"; "label"]
    ["start_offset"; "end_offset"; "label"].

Definition DoccanoEntityTuple_new (args : list pyarg) (kw : kwargs)
  : result DoccanoEntityTuple :=
  a ← bind_args DoccanoEntityTuple_sig args kw;
  start_offset ← as_int "start_offset" (param a "start_offset");
  end_offset ← as_int "end_offset" (param a "end_offset");
  label ← as_str "label" (param a "label");
  Ok (mkDoccanoEntityTuple start_offset end_offset label).

Definition DoccanoRelation_sig : signature :=
  mkSignature "DoccanoRelation.__init__"
    ["id"; "from_id"; "to_id"; "type"] ["id"; "from_id"; "to_id"; "type"].

Definition DoccanoRelation_new (args : list pyarg) (kw : kwargs)
  : result DoccanoRelation :=
  a ← bind_args DoccanoRelation_sig args kw;
  id ← as_int "id" (param a "id");
  from_id ← as_int "from_id" (param a "from_id");
  to_id ← as_int "to_id" (param a "to_id");
  type ← as_str "type" (param a "type");
  Ok (mkDoccanoRelation id from_id to_id type).

(** A call that unpacks [ann] as keywords: [ann] must be a mapping; its
    items are the keyword arguments. *)
Definition call_with_mapping {A} (callee : string)
    (new : list pyarg -> kwargs -> result A) (ann : pyval) : attempt A :=
  match ann with
  | VDict d => of_result (new [] (map_to_list (arg_of_val <$> d)))
  | _ => Fail (TypeError_not_a_mapping callee)
  end.

(** A call that unpacks [ann] as positional arguments: [ann] must be
    iterable; its elements are the arguments.  A string gives its
    characters; iterating a dict gives its keys in insertion order, which
    the model does not keep. *)
Definition call_with_sequence {A} (callee : string)
    (new : list pyarg -> kwargs -> result A) (ann : pyval) : attempt A :=
  match ann with
  | VList l => of_result (new (map arg_of_val l) [])
  | VStr s =>
    of_result (new (map (fun c => AStr (String c EmptyString))
                        (list_ascii_of_string s)) [])
  | VDict _ => Fail (Core (Unsupported "argument after *"))
  | _ => Fail (TypeError_not_iterable callee)
  end.

(** [for ann in v]: the export holds lists. *)
Definition as_list (what : string) (v : pyval) : result (list pyval) :=
  match v with VList l => Ok l | _ => Raise (Unsupported what) end.

(** [doc_line.get("metadata", {})] and [doc_line.get("id", None)] at their
    annotated types. *)
Definition get_metadata (doc_line : gmap string pyval)
  : result (gmap string pyval) :=
  match doc_line !! "metadata" with
  | None => Ok ∅
  | Some (VDict m) => Ok m
  | Some _ => Raise (Unsupported "metadata")
  end.

Definition get_id (doc_line : gmap string pyval) : result (option Z) :=
  match doc_line !! "id" with
  | None | Some VNone => Ok None
  | Some (VInt i) => Ok (Some i)
  | Some _ => Raise (Unsupported "id")
  end.

Definition as_text (what : string) (v : pyval) : result string :=
  match v with VStr s => Ok s | _ => Raise (Unsupported what) end.

(** The loop over the serialised annotations: each one is built by
    unpacking and stored under its [id], replacing what was there. *)
Fixpoint collect_by_id {A} (callee : string)
    (new : list pyarg -> kwargs -> result A) (id : A -> Z)
    (acc : gmap Z A) (anns : list pyval) : attempt (gmap Z A) :=
  match anns with
  | [] => Done acc
  | ann :: rest =>
    x ← call_with_mapping callee new ann;
    collect_by_id callee new id (<[id x := x]> acc) rest
  end.

Definition DoccanoDocRelationExtraction_from_dict
    (doc_line : gmap string pyval) (column_text : string)
  : attempt DoccanoDocRelationExtraction :=
  id ← of_result (get_id doc_line);
  text ← of_result (getitem doc_line column_text ≫= as_text column_text);
  metadata ← of_result (get_metadata doc_line);
  entity_anns ← of_result (getitem doc_line "entities" ≫= as_list "entities");
  entities ← collect_by_id "DoccanoEntity" DoccanoEntity_new de_id ∅
               entity_anns;
  relation_anns ← of_result (getitem doc_line "relations"
                              ≫= as_list "relations");
  relations ← collect_by_id "DoccanoRelation" DoccanoRelation_new dr_id ∅
                relation_anns;
  Done (mkDoccanoDocRelationExtraction id text entities relations metadata).

Definition DoccanoDocSeqLabeling_from_dict (doc_line : gmap string pyval)
    (column_text column_label : string) : attempt DoccanoDocSeqLabeling :=
  text ← of_result (getitem doc_line column_text ≫= as_text column_text);
  metadata ← of_result (get_metadata doc_line);
  anns ← of_result (getitem doc_line column_label ≫= as_list column_label);
  entities ← attempt_all (call_with_sequence "DoccanoEntityTuple"
                            DoccanoEntityTuple_new) anns;
  Done (mkDoccanoDocSeqLabeling text entities metadata).

(** [v[0]] on a list or a string. *)
Definition first_item (v : pyval) : attempt pyval :=
  match v with
  | VList (x :: _) => Done x
  | VList [] => Fail (IndexError "list index out of range")
  | VStr (String c _) => Done (VStr (String c EmptyString))
  | VStr EmptyString => Fail (IndexError "string index out of range")
  | _ => Fail (Core (Unsupported "subscript"))
  end.

Definition DoccanoDocTextClassification_from_dict
    (doc_line : gmap string pyval) (column_text column_label : string)
  : attempt DoccanoDocTextClassification :=
  text ← of_result (getitem doc_line column_text ≫= as_text column_text);
  metadata ← of_result (get_metadata doc_line);
  labels ← of_result (getitem doc_line column_label);
  first ← first_item labels;
  label ← of_result (as_text column_label first);
  Done (mkDoccanoDocTextClassification text label metadata).

(** ** training/utils.py: [BatchData]

    A [BatchData] is an [OrderedDict] from column names to columns, which
    also keeps each column as an instance attribute.  The model has the
    ordered items and the instance attributes side by side.  A column is a
    list or a tensor; tensors, devices, moving a tensor to a device and
    indexing a tensor belong to torch and are taken as given. *)

Section BatchData.

Variable tensor : Type.
Variable device : Type.

(** [value.to(device)] *)
Variable tensor_to : tensor -> device -> tensor.

(** [value[index]] on a tensor; [None] stands for its [IndexError]. *)
Variable tensor_getitem : tensor -> Z -> option tensor.

Inductive column : Type :=
| ListColumn (l : list pyval)
| TensorColumn (t : tensor).

Inductive cell : Type :=
| ListItem (v : pyval)
| TensorItem (t : tensor).

Record BatchData : Type := mkBatchData {
  items : list (string * column);
  attributes : gmap string (option column) }.

(** [BatchData()] *)
Definition BatchData_empty : BatchData := mkBatchData [] ∅.

Definition keys (self : BatchData) : list string := (items self).*1.

(** Names the classes [dict], [OrderedDict] and [BatchData] define: an
    instance attribute or a column of such a name would hide the method
    the class itself calls.  Together with the names that begin with an
    underscore they are outside the model. *)
Definition class_members : list string :=
  ["clear"; "copy"; "fromkeys"; "get"; "items"; "keys"; "move_to_end";
   "pop"; "popitem"; "setdefault"; "update"; "values"; "to_device"].

Definition supported_name (name : string) : bool :=
  negb (is_private name) && negb (bool_decide (name ∈ class_members)).

(** [OrderedDict.__setitem__]: an existing key keeps its place, a new key
    goes to the end. *)
Fixpoint odict_setitem (l : list (string * column)) (key : string)
    (values : column) : list (string * column) :=
  match l with
  | [] => [(key, values)]
  | (k, v) :: rest =>
    if decide (k = key) then (k, values) :: rest
    else (k, v) :: odict_setitem rest key values
  end.

(** [dict[key]] on the items. *)
Fixpoint odict_getitem (l : list (string * column)) (key : string)
  : attempt column :=
  match l with
  | [] => Fail (Core (KeyError key))
  | (k, v) :: rest => if decide (k = key) then Done v else odict_getitem rest key
  end.

(** [l[index]] on a list: a negative index counts from the end. *)
Definition list_getitem (l : list pyval) (index : Z) : attempt pyval :=
  let n := Z.of_nat (length l) in
  let i := if index <? 0 then index + n else index in
  if (0 <=? i) && (i <? n) then
    match l !! Z.to_nat i with
    | Some v => Done v
    | None => Fail (IndexError "list index out of range")
    end
  else Fail (IndexError "list index out of range").

Definition column_getitem (values : column) (index : Z) : attempt cell :=
  match values with
  | ListColumn l => ListItem <$> list_getitem l index
  | TensorColumn t =>
    match tensor_getitem t index with
    | Some x => Done (TensorItem x)
    | None => Fail (IndexError "index out of range")
    end
  end.

(** [__getitem__] with a string: the column of that name. *)
Definition BatchData_getitem_str (self : BatchData) (index : string)
  : attempt column :=
  odict_getitem (items self) index.

(** [__getitem__] with an integer: the row, as a dict in the order of the
    columns. *)
Definition BatchData_getitem_int (self : BatchData) (index : Z)
  : attempt (list (string * cell)) :=
  attempt_all (fun kv => c ← column_getitem kv.2 index; Done (kv.1, c))
              (items self).

(** [__getattr__], which Python calls when the ordinary lookup finds
    nothing. *)
Definition BatchData___getattr__ (self : BatchData) (name : string)
  : attempt column :=
  if bool_decide (name ∈ keys self) then BatchData_getitem_str self name
  else Fail (Core (AttributeError "BatchData" name)).

(** [self.name]: the instance attribute if there is one, else
    [__getattr__]. *)
Definition BatchData_getattr (self : BatchData) (name : string)
  : attempt (option column) :=
  if supported_name name then
    match attributes self !! name with
    | Some v => Done v
    | None => Some <$> BatchData___getattr__ self name
    end
  else Fail (Core (Unsupported name)).

(** [self.name = values] *)
Definition BatchData_setattr (self : BatchData) (name : string)
    (values : option column) : attempt BatchData :=
  if supported_name name then
    let items' :=
      match values with
      | Some v =>
        if bool_decide (name ∈ keys self)
        then odict_setitem (items self) name v
        else items self
      | None => items self
      end in
    Done (mkBatchData items' (<[name := values]> (attributes self)))
  else Fail (Core (Unsupported name)).

(** [self[key] = values] *)
Definition BatchData_setitem (self : BatchData) (key : string)
    (values : column) : attempt BatchData :=
  if supported_name key then
    Done (mkBatchData (odict_setitem (items self) key values)
                      (<[key := Some values]> (attributes self)))
  else Fail (Core (Unsupported key)).

Definition to_device_value (dev : device) (value : column) : column :=
  match value with
  | TensorColumn t => TensorColumn (tensor_to t dev)
  | ListColumn l => ListColumn l
  end.

Fixpoint to_device_loop (dev : device) (inner_batch : BatchData)
    (l : list (string * column)) : attempt BatchData :=
  match l with
  | [] => Done inner_batch
  | (key, value) :: rest =>
    inner_batch' ← BatchData_setitem inner_batch key (to_device_value dev value);
    to_device_loop dev inner_batch' rest
  end.

Definition BatchData_to_device (self : BatchData) (dev : device)
  : attempt BatchData :=
  to_device_loop dev BatchData_empty (items self).

End BatchData.

(** * Definitions for the statements *)

(** An optional argument: absent, it is [None]. *)
Definition opt_arg {A} (f : A -> pyarg) (o : option A) : pyarg :=
  from_option f ANone o.

(** A dict written by a newer release, and a registry that knows one
    subclass under another name. *)
Definition newer_attribute_dict : gmap string pyval :=
  list_to_map [("class_name", VStr "ScoredAttribute"); ("uid", VStr "a1");
               ("label", VStr "negation"); ("value", VBool true);
               ("metadata", VDict {[ "rule_id" := VStr "id_neg_no" ]})].

Definition one_subclass_registry : subclass_registry Attribute :=
  {[ "DateAttribute" :=
       fun d => lift (Raise (KeyError "year")) ]}.

(** The bounding range of a non-empty list of plain spans. *)
Definition bounding_start (s0 : Span.t) (rest : list Span.t) : Z :=
  fold_right Z.min (Span.start s0) (map Span.start rest).

Definition bounding_end (s0 : Span.t) (rest : list Span.t) : Z :=
  fold_right Z.max (Span.end_ s0) (map Span.end_ rest).

(** [normalize_spans] on plain spans only. *)
Fixpoint merge_contiguous (l : list Span.t) : list Span.t :=
  match l with
  | [] => []
  | a :: rest =>
    match merge_contiguous rest with
    | b :: tl =>
      if Span.end_ a =? Span.start b
      then Span.mk (Span.start a) (Span.end_ b) :: tl
      else a :: b :: tl
    | [] => [a]
    end
  end.

Definition ordered (s : Span.t) : Prop := Span.start s <= Span.end_ s.

Definition within (n : Z) (s : Span.t) : Prop :=
  0 <= Span.start s /\ Span.start s <= Span.end_ s /\ Span.end_ s <= n.

(** C3 as the spec words it: the window is never shorter than
    [min(max_extend_length + span_length, len(document.text))]. *)
Definition snippet_never_shorter (seg : Segment) (doc : TextDocument)
    (max_extend_length : Z) (s0 : Span.t) (rest : list Span.t) : Prop :=
  exists w,
    get_snippet seg doc max_extend_length = Ok w /\
    Z.min (max_extend_length + (bounding_end s0 rest - bounding_start s0 rest))
          (len (TextDocument_text doc))
    <= len w.

(** A document of ten characters, a segment on its last two characters and
    a segment of two contiguous spans near its start.  [get_snippet] reads
    nothing of the document but its text. *)
Definition ten_chars_doc : TextDocument :=
  let raw := mkSegment CSegment (mkAnnotation "raw" RAW_LABEL [] ∅)
                       [ASpan (Span.mk 0 10)] "0123456789" in
  mkTextDocument "doc" ∅ raw (TextAnnotationContainer_init "doc" raw).

Definition tail_segment : Segment :=
  mkSegment CSegment (mkAnnotation "s1" "X" [] ∅) [ASpan (Span.mk 8 10)] "89".

Definition head_segment : Segment :=
  mkSegment CSegment (mkAnnotation "s2" "X" [] ∅)
            [ASpan (Span.mk 1 3); ASpan (Span.mk 3 4)] "123".

(** C8 as the spec words it: nothing a client does changes the class, the
    uid, the label, the spans or the text of an annotation. *)
Definition identity_is_fixed : Prop :=
  forall (h : heap) (self : loc) (op : client_op) (id : identity),
    allocated h -> separated h self ->
    identity_at h self = Some id ->
    identity_at (run_client op self h).1 self = Some id.

Definition empty_heap : heap := mkHeap ∅ 0%nat 0%nat.

(** The entity of tests/unit/text/ner/test_hf_tokenization_utils.py, built
    by its constructor from a list that the caller holds: the list is at
    location 0, the entity at 1, its [attrs] at 2 and its [metadata]
    at 3. *)
Definition language_entity_heap : heap :=
  ((spans ← alloc (OList [ISpan (Span.mk 22 28)]);
    Segment_init_h (fun _ => "e2") CEntity "language" spans "python"
                   None None None) empty_heap).1.

Definition language_identity (spans : list AnySpanType) : identity :=
  SegmentIdentity "Entity" "e2" "language" spans "python".

(** [ten_chars_doc] and [tail_segment] as objects: the raw segment is at
    location 1, the document at 4 and the segment at 6. *)
Definition ten_chars_heap : heap :=
  ((raw_spans ← alloc (OList [ISpan (Span.mk 0 10)]);
    raw ← Segment_init_h (fun _ => "raw") CSegment RAW_LABEL raw_spans
                          "0123456789" None None None;
    doc ← alloc (OInstance "TextDocument" {[ "raw_segment" := IRef raw ]});
    spans ← alloc (OList [ISpan (Span.mk 8 10)]);
    Segment_init_h (fun _ => "s1") CSegment "X" spans "89" None None None)
     empty_heap).1.

(** The same entity built with one list given both as [spans] and as
    [attrs]. *)
Definition aliased_entity_heap : heap :=
  ((shared ← alloc (OList [ISpan (Span.mk 22 28)]);
    Segment_init_h (fun _ => "e2") CEntity "language" shared "python"
                   (Some shared) None None) empty_heap).1.

(** A program that changes no object below the location [b], allocates
    upwards only, and whose results satisfy [Q]. *)
Definition keeps {A} (b : loc) (m : Prog A) (Q : A -> Prop) : Prop :=
  forall h : heap,
    (b <= next_loc h)%nat ->
    (next_loc h <= next_loc (m h).1)%nat /\
    (forall l, (l < b)%nat -> objs (m h).1 !! l = objs h !! l) /\
    (forall a, (m h).2 = Ok a -> Q a).

Definition any {A} (a : A) : Prop := True.

Definition above (b : loc) (l : loc) : Prop := (b <= l)%nat.

(** A program that changes no object but the one at [w]. *)
Definition writes_only {A} (w : loc) (m : Prog A) : Prop :=
  forall (h : heap) (l : loc), l <> w -> objs (m h).1 !! l = objs h !! l.

(** The two hypotheses on the heaps below, as computations. *)
Definition allocatedb (h : heap) : bool :=
  bool_decide (map_Forall (fun l _ => (l < next_loc h)%nat) (objs h)).

Definition separatedb (h : heap) (self : loc) : bool :=
  match objs h !! self with
  | Some (OInstance _ fields) =>
    forallb (fun name =>
               match fields !! name with
               | Some (IRef l) => bool_decide (l ∉ footprint h self)
               | _ => true
               end) ["attrs"; "metadata"]
  | _ => true
  end.

(** The entity of tests/unit/text/ner/test_hf_tokenization_utils.py, whose
    spans the test replaces by assignment. *)
Definition language_entity : TextAnnotation :=
  TASegment (mkSegment CEntity (mkAnnotation "e2" "language" [] ∅)
                       [ASpan (Span.mk 22 28)] "python").

Definition span_class_name (s : AnySpanType) : string :=
  if is_plain s then "Span" else "ModifiedSpan".

(** The segment of the scenario of the spec: "cat" in "The cat sat.". *)
Definition cat_segment : Segment :=
  mkSegment CSegment (mkAnnotation "s1" "X" [] ∅) [ASpan (Span.mk 4 7)] "cat".

Definition cat_entity : Segment :=
  mkSegment CEntity (mkAnnotation "e1" "animal" [] ∅)
            [ASpan (Span.mk 4 7)] "cat".

Definition normalized_segment : Segment :=
  mkSegment CSegment (mkAnnotation "s3" "X" [] ∅)
            [AModifiedSpan (ModifiedSpan.mk 1 [Span.mk 3 5])] " ".

(** What every attempt to build the raw segment ends with: [Segment] has no
    parameter [uid] (its identifier parameter is [ann_id]), so the call in
    [_generate_raw_segment] is a [TypeError]. *)
Definition raw_segment_failure (getrandbits128 : string -> Z)
    (doc_id : string) : exn :=
  match raw_segment_uid getrandbits128 doc_id with
  | Ok _ => TypeError_unexpected_keyword "Segment.__init__" "uid"
  | Raise e => e
  end.

Definition negation_attribute : Attribute :=
  mkAttribute Attribute_class "a1" "negation" (VBool true)
              {[ "rule_id" := VStr "id_neg_no" ]}.


Definition hello_document_dict : gmap string pyval :=
  list_to_map [("class_name", VStr "TextDocument"); ("uid", VStr "d1");
               ("text", VStr "hello"); ("metadata", VDict ∅)].

(** The serialised forms of the doccano annotations. *)
Definition encode_entity (e : DoccanoEntity) : pyval :=
  VDict (list_to_map [("id", VInt (de_id e));
                      ("start_offset", VInt (de_start_offset e));
                      ("end_offset", VInt (de_end_offset e));
                      ("label", VStr (de_label e))]).

Definition encode_relation (r : DoccanoRelation) : pyval :=
  VDict (list_to_map [("id", VInt (dr_id r)); ("from_id", VInt (dr_from_id r));
                      ("to_id", VInt (dr_to_id r)); ("type", VStr (dr_type r))]).

Definition encode_tuple (t : DoccanoEntityTuple) : pyval :=
  VList [VInt (dt_start_offset t); VInt (dt_end_offset t);
         VStr (dt_label t)].

(** Storing the elements of a list under their identifiers, in order. *)
Definition stored_by_id {A} (id : A -> Z) (acc : gmap Z A) (l : list A)
  : gmap Z A :=
  foldl (fun m x => <[id x := x]> m) acc l.

(** The line of tests/unit/io/test__doccano_utils.py. *)
Definition medkit_entities : list DoccanoEntity :=
  [mkDoccanoEntity 0 0 6 "ORG"; mkDoccanoEntity 1 22 26 "DATE"].

Definition medkit_relations : list DoccanoRelation :=
  [mkDoccanoRelation 0 0 1 "created_in"].

Definition relation_extraction_line : gmap string pyval :=
  list_to_map [("text", VStr "medkit was created in 2022");
               ("entities", VList (encode_entity <$> medkit_entities));
               ("relations", VList (encode_relation <$> medkit_relations));
               ("custom_data", VStr "phrase_0")].




Definition seq_labeling_line : gmap string pyval :=
  list_to_map [("text", VStr "medkit was created in 2022");
               ("label", VList [VList [VInt 0; VInt 6; VStr "ORG"];
                                VList [VInt 22; VInt 26; VStr "DATE"]])].

Definition text_classification_line : gmap string pyval :=
  list_to_map [("text", VStr "medkit was created in 2022");
               ("label", VList [VStr "header"; VStr "title"])].

(** The attributes of a batch are its columns and nothing else. *)
Definition in_sync {tensor : Type} (b : BatchData tensor) : Prop :=
  forall name : string,
    attributes tensor b !! name
    = match odict_getitem tensor (items tensor b) name with
      | Done c => Some (Some c)
      | Fail _ => None
      end.

(** What a row must be: one cell per column, in the order of the columns,
    each the element of its column at the index. *)
Definition row_of {tensor : Type} (tensor_getitem : tensor -> Z -> option tensor)
    (index : Z) (kv : string * column tensor) (kc : string * cell tensor)
  : Prop :=
  kc.1 = kv.1 /\ column_getitem tensor tensor_getitem kv.2 index = Done kc.2.

(** A batch of two list columns, with integers standing for tensors. *)
Definition toy_batch : BatchData Z :=
  mkBatchData Z
    [("input_ids", ListColumn Z [VInt 101; VInt 102]);
     ("labels", ListColumn Z [VStr "O"; VStr "B-corporation"])]
    {[ "input_ids" := Some (ListColumn Z [VInt 101; VInt 102]);
       "labels" := Some (ListColumn Z [VStr "O"; VStr "B-corporation"]);
       "note" := None ]}.

(** * Properties *)

(** ** Construction of spans *)

(** C10.  Constructing a [Span] or a [ModifiedSpan] always succeeds and
    validates nothing.  For all integers [s] and [e], [Span(s, e)] (called
    positionally or by keyword) is the span with these bounds and its
    [length] is [e - s]; this length is zero for [Span(3, 3)] and negative
    for [Span(5, 2)], so [0 <= start < end] is not enforced.
    [ModifiedSpan(n, rs)] stores any length [n] and any list [rs] of
    replaced spans, whatever their relationship. *)
Theorem span_construction_validates_nothing :
  (forall s e : Z,
      Span_new [AInt s; AInt e] [] = Ok (Span.mk s e) /\
      Span_new [] [("start", AInt s); ("end", AInt e)] = Ok (Span.mk s e) /\
      Span.length (Span.mk s e) = e - s /\
      Span_getattr (Span.mk s e) "length" = Ok (IntAttr (e - s))) /\
  (exists sp, Span_new [AInt 3; AInt 3] [] = Ok sp /\ Span.length sp = 0) /\
  (exists sp, Span_new [AInt 5; AInt 2] [] = Ok sp /\ Span.length sp < 0) /\
  (forall (n : Z) (rs : list Span.t),
      ModifiedSpan_new [AInt n; APlainSpans rs] [] = Ok (ModifiedSpan.mk n rs) /\
      ModifiedSpan_new [] [("length", AInt n); ("replaced_spans", APlainSpans rs)]
        = Ok (ModifiedSpan.mk n rs) /\
      ModifiedSpan.length (ModifiedSpan.mk n rs) = n /\
      ModifiedSpan.replaced_spans (ModifiedSpan.mk n rs) = rs).
Proof.
  split; [|split; [|split]].
  - intros s e. repeat split; reflexivity.
  - exists (Span.mk 3 3). split; reflexivity.
  - exists (Span.mk 5 2). split; [reflexivity|]. unfold Span.length; simpl; lia.
  - intros n rs. repeat split; reflexivity.
Qed.

(** ** Construction of relations *)

(** C7.  For every label and every pair of strings [source_id] and
    [target_id] (and whatever optional attributes, identifier and metadata
    are passed), constructing a [Relation] succeeds and stores [source_id]
    and [target_id] verbatim.  The constructor receives no container and
    looks nothing up, so endpoints that were never added anywhere do not
    make the construction fail. *)
Theorem Relation_init_stores_endpoints_unchecked :
  forall (fresh_id : nat -> string) (l s t : string)
         (attrs : option (list Attribute)) (rel_id : option string)
         (metadata : option (gmap string pyval)) (n : nat),
    Relation_init fresh_id
      [("label", AStr l); ("source_id", AStr s); ("target_id", AStr t)] n
    = Ok (mkRelation (mkAnnotation (fresh_id n) l [] ∅) s t, S n) /\
    Relation_init fresh_id
      [("label", AStr l); ("source_id", AStr s); ("target_id", AStr t);
       ("attrs", opt_arg AAttrs attrs); ("rel_id", opt_arg AStr rel_id);
       ("metadata", opt_arg AMeta metadata)] n
    = Ok (mkRelation
            (mkAnnotation (default (fresh_id n) rel_id) l (default [] attrs)
                          (default ∅ metadata)) s t,
          if rel_id is Some _ then n else S n).
Proof.
  intros fresh_id l s t attrs rel_id metadata n. split; [reflexivity|].
  destruct attrs, rel_id, metadata; reflexivity.
Qed.

(** ** Attributes *)

Lemma as_val_arg_of_val (what : string) (v : pyval) :
  as_val what (arg_of_val v) = Ok v.
Proof. destruct v; reflexivity. Qed.

Lemma Attribute_init_from_fields (fresh_id : nat -> string) (cls : pyclass)
    (u l : string) (v : pyval) (m : gmap string pyval) (n : nat) :
  Attribute_init fresh_id cls
    [("uid", AStr u); ("label", AStr l); ("value", arg_of_val v);
     ("metadata", AMeta m)] n
  = Ok (mkAttribute cls u l v m, n).
Proof. destruct v; reflexivity. Qed.

(** C6.  A dict that holds the base fields [uid], [label], [value] and
    [metadata] and a class name that names no registered subclass of
    [Attribute] is loaded without failure: [Attribute.from_dict] falls back
    to a base [Attribute] built from these fields. *)
Theorem Attribute_from_dict_falls_back_to_base :
  forall (fresh_id : nat -> string) (registry : subclass_registry Attribute)
         (d : gmap string pyval) (name u l : string) (v : pyval)
         (m : gmap string pyval) (n : nat),
    d !! class_name_key = Some (VStr name) ->
    registry !! name = None ->
    d !! "uid" = Some (VStr u) ->
    d !! "label" = Some (VStr l) ->
    d !! "value" = Some v ->
    d !! "metadata" = Some (VDict m) ->
    Attribute_from_dict fresh_id registry Attribute_class d n
    = Ok (mkAttribute Attribute_class u l v m, n).
Proof.
  intros fresh_id registry d name u l v m n Hname Hreg Hu Hl Hv Hm.
  unfold Attribute_from_dict, get_subclass_for_data_dict.
  rewrite Hname. 
  assert (Hnone : (if decide (name = Attribute_class) then None
                   else registry !! name) = None)
    by (destruct (decide (name = Attribute_class)); [reflexivity|exact Hreg]).
  rewrite Hnone. unfold getitem. rewrite Hu, Hl, Hv, Hm.
  apply Attribute_init_from_fields.
Qed.

(** X1.  Round trip of a base attribute: loading the dict that [to_dict]
    wrote for an instance of [Attribute] itself gives the attribute back,
    with its uid, label, value and metadata, and draws no identifier,
    whatever subclasses are registered. *)
Lemma Attribute_round_trip (fresh_id : nat -> string)
    (registry : subclass_registry Attribute) (a : Attribute) (n : nat) :
  attr_class a = Attribute_class ->
  Attribute_from_dict fresh_id registry Attribute_class (Attribute_to_dict a) n
  = Ok (a, n).
Proof.
  destruct a as [cls u l v m]. simpl. intros ->.
  unfold Attribute_from_dict, get_subclass_for_data_dict, Attribute_to_dict,
    add_class_name_to_data_dict.
  rewrite lookup_insert_eq.
  destruct (decide (Attribute_class = Attribute_class)) as [_|Hne];
    [|contradiction].
  cbn [attr_class attr_uid attr_label attr_value_ attr_metadata].
  change (getitem _ "uid") with (Ok (VStr u)).
  change (getitem _ "label") with (Ok (VStr l)).
  change (getitem _ "value") with (Ok v).
  change (getitem _ "metadata") with (Ok (VDict m)).
  apply (Attribute_init_from_fields fresh_id Attribute_class u l v m n).
Qed.

Lemma Attribute_from_dict_falls_back_to_base_witness :
  Attribute_from_dict (fun _ => "fresh") one_subclass_registry Attribute_class
    newer_attribute_dict 0%nat
  = Ok (mkAttribute Attribute_class "a1" "negation" (VBool true)
          {[ "rule_id" := VStr "id_neg_no" ]}, 0%nat).
Proof.
  apply (Attribute_from_dict_falls_back_to_base (fun _ => "fresh")
           one_subclass_registry newer_attribute_dict "ScoredAttribute");
    reflexivity.
Defined.

(** ** The window of [get_snippet] *)

Lemma normalize_spans_plain (l : list Span.t) :
  normalize_spans (map ASpan l) = map ASpan (merge_contiguous l).
Proof.
  induction l as [|a rest IH]; [reflexivity|].
  cbn [map normalize_spans merge_contiguous]. rewrite IH.
  destruct (merge_contiguous rest) as [|b tl]; [reflexivity|].
  cbn [map]. destruct (Span.end_ a =? Span.start b); reflexivity.
Qed.

Lemma comprehension_plain (name : string) (f : Span.t -> Z) (l : list Span.t) :
  (forall s, int_attr (ASpan s) name = Ok (f s)) ->
  comprehension (fun s => int_attr s name) (map ASpan l) = Ok (map f l).
Proof.
  intros Hf. induction l as [|a rest IH]; [reflexivity|].
  cbn [map comprehension]. rewrite Hf, IH. reflexivity.
Qed.

Lemma merge_contiguous_ordered (l : list Span.t) :
  Forall ordered l -> Forall ordered (merge_contiguous l).
Proof.
  induction 1 as [|a rest Ha Hrest IH]; [constructor|].
  cbn [merge_contiguous].
  destruct (merge_contiguous rest) as [|b tl]; [repeat constructor; exact Ha|].
  inversion IH as [|? ? Hb Htl]; subst.
  destruct (Z.eqb_spec (Span.end_ a) (Span.start b)) as [Heq|_].
  - constructor; [|exact Htl]. unfold ordered in *; simpl; lia.
  - constructor; [exact Ha|exact IH].
Qed.

Lemma merge_contiguous_head (a : Span.t) (rest : list Span.t) :
  Forall ordered (a :: rest) ->
  exists m0 mrest,
    merge_contiguous (a :: rest) = m0 :: mrest /\
    Span.start m0 = Span.start a /\ Span.end_ a <= Span.end_ m0.
Proof.
  intros Hall. inversion Hall as [|? ? Ha Hrest]; subst.
  pose proof (merge_contiguous_ordered rest Hrest) as Hm.
  cbn [merge_contiguous].
  destruct (merge_contiguous rest) as [|b tl].
  - exists a, []. repeat split; lia.
  - inversion Hm as [|? ? Hb _]; subst.
    destruct (Z.eqb_spec (Span.end_ a) (Span.start b)) as [Heq|_].
    + eexists _, _. split; [reflexivity|]. unfold ordered in *; simpl; lia.
    + exists a, (b :: tl). repeat split; lia.
Qed.

Lemma merge_contiguous_min (d : Z) (l : list Span.t) :
  Forall ordered l ->
  fold_right Z.min d (map Span.start (merge_contiguous l))
  = fold_right Z.min d (map Span.start l).
Proof.
  induction 1 as [|a rest Ha Hrest IH]; [reflexivity|].
  cbn [merge_contiguous map fold_right]. rewrite <- IH.
  destruct (merge_contiguous rest) as [|b tl]; [reflexivity|].
  destruct (Z.eqb_spec (Span.end_ a) (Span.start b)) as [Heq|_];
    [|reflexivity].
  cbn [map fold_right]. unfold ordered in Ha. simpl. lia.
Qed.

Lemma merge_contiguous_max (d : Z) (l : list Span.t) :
  Forall ordered l ->
  fold_right Z.max d (map Span.end_ (merge_contiguous l))
  = fold_right Z.max d (map Span.end_ l).
Proof.
  intros Hall. pose proof (merge_contiguous_ordered l Hall) as Hm.
  induction Hall as [|a rest Ha Hrest IH]; [reflexivity|].
  cbn [merge_contiguous map fold_right] in *.
  pose proof (merge_contiguous_ordered rest Hrest) as Hm'.
  rewrite <- (IH Hm').
  destruct (merge_contiguous rest) as [|b tl]; [reflexivity|].
  inversion Hm' as [|? ? Hb _]; subst.
  destruct (Z.eqb_spec (Span.end_ a) (Span.start b)) as [Heq|_];
    [|reflexivity].
  cbn [map fold_right]. unfold ordered in Hb. simpl. lia.
Qed.

Lemma fold_min_head (x d : Z) (r : list Z) :
  x <= d -> Z.min x (fold_right Z.min d r) = fold_right Z.min x r.
Proof. intros Hxd. induction r as [|y r IH]; simpl; lia. Qed.

Lemma fold_max_head (x d : Z) (r : list Z) :
  d <= x -> Z.max x (fold_right Z.max d r) = fold_right Z.max x r.
Proof. intros Hxd. induction r as [|y r IH]; simpl; lia. Qed.

Lemma py_min_cons (x : Z) (r : list Z) :
  py_min (x :: r) = Ok (fold_right Z.min x r).
Proof.
  unfold py_min. f_equal. apply fold_symmetric; intros; lia.
Qed.

Lemma py_max_cons (x : Z) (r : list Z) :
  py_max (x :: r) = Ok (fold_right Z.max x r).
Proof.
  unfold py_max. f_equal. apply fold_symmetric; intros; lia.
Qed.

(** The bounding range survives the normalisation. *)
Lemma bounding_range_normalized (s0 : Span.t) (rest : list Span.t) :
  Forall ordered (s0 :: rest) ->
  exists m0 mrest,
    merge_contiguous (s0 :: rest) = m0 :: mrest /\
    fold_right Z.min (Span.start m0) (map Span.start mrest)
    = bounding_start s0 rest /\
    fold_right Z.max (Span.end_ m0) (map Span.end_ mrest)
    = bounding_end s0 rest.
Proof.
  intros Hall.
  destruct (merge_contiguous_head s0 rest Hall) as (m0 & mrest & Hm & Hs & He).
  exists m0, mrest. split; [exact Hm|].
  pose proof (merge_contiguous_min (Span.start s0) _ Hall) as Hmin.
  pose proof (merge_contiguous_max (Span.end_ s0) _ Hall) as Hmax.
  rewrite Hm in Hmin, Hmax. cbn [map fold_right] in Hmin, Hmax.
  unfold bounding_start, bounding_end. split.
  - rewrite <- (fold_min_head (Span.start s0) (Span.start s0)) by lia.
    rewrite <- Hmin, Hs.
    rewrite (fold_min_head (Span.start s0) (Span.start s0)) by lia.
    rewrite <- (fold_min_head (Span.start s0) (Span.start s0)) by lia.
    lia.
  - rewrite <- (fold_max_head (Span.end_ s0) (Span.end_ s0)) by lia.
    rewrite <- Hmax.
    rewrite <- (fold_max_head (Span.end_ m0) (Span.end_ s0)) by lia.
    lia.
Qed.

Lemma substring_length (n m : nat) (s : string) :
  (n + m <= String.length s)%nat -> String.length (substring n m s) = m.
Proof.
  revert n m. induction s as [|c s IH]; intros n m Hle; simpl in Hle.
  - destruct n, m; try lia; reflexivity.
  - destruct n as [|n].
    + destruct m as [|m]; [reflexivity|]. simpl. f_equal. apply IH. lia.
    + simpl. apply IH. lia.
Qed.

Lemma py_slice_length (s : string) (a b : Z) :
  0 <= a -> a <= b -> b <= len s -> len (py_slice s a b) = b - a.
Proof.
  intros Ha Hab Hb. unfold py_slice, clamp_index, len in *.
  destruct (Z.ltb_spec a 0); [lia|]. destruct (Z.ltb_spec b 0); [lia|].
  rewrite !Z.min_l by lia. rewrite substring_length by lia. lia.
Qed.

Lemma bounding_range_within (n : Z) (s0 : Span.t) (rest : list Span.t) :
  Forall (within n) (s0 :: rest) ->
  0 <= bounding_start s0 rest /\
  bounding_start s0 rest <= bounding_end s0 rest /\
  bounding_end s0 rest <= n.
Proof.
  intros Hall. inversion Hall as [|? ? H0 Hrest]; subst.
  unfold bounding_start, bounding_end, within in *.
  assert (Hlo : 0 <= fold_right Z.min (Span.start s0) (map Span.start rest)
                <= Span.start s0).
  { clear Hall. induction Hrest as [|a r Ha _ IH]; simpl; lia. }
  assert (Hhi : Span.end_ s0
                <= fold_right Z.max (Span.end_ s0) (map Span.end_ rest) <= n).
  { clear Hall Hlo. induction Hrest as [|a r Ha _ IH]; simpl; lia. }
  lia.
Qed.

(** C3, amended.  For a segment whose spans are a non-empty list of plain
    spans inside the document text and for [max_extend_length >= 0],
    [get_snippet] returns [text[start_extended:end_extended]] of the
    document, where [start_extended = max(start - max_extend_length // 2, 0)]
    and [end_extended = min(end + max_extend_length - (start -
    start_extended), len(text))] for the bounding range [start, end).  The
    window contains the bounding range, takes at most
    [max_extend_length // 2] characters before it and at most
    [max_extend_length] in all around it.  Budget that cannot be used before
    the segment is used after it; the converse does not happen: at the
    document end the window is only clipped, so its length is exactly
    [min(max_extend_length + span_length, len(text) - start_extended)]. *)
Theorem get_snippet_window :
  forall (seg : Segment) (doc : TextDocument) (max_extend_length : Z)
         (s0 : Span.t) (rest : list Span.t),
    spans seg = map ASpan (s0 :: rest) ->
    Forall (within (len (TextDocument_text doc))) (s0 :: rest) ->
    0 <= max_extend_length ->
    let start := bounding_start s0 rest in
    let end_ := bounding_end s0 rest in
    let start_extended := Z.max (start - max_extend_length / 2) 0 in
    let end_extended :=
      Z.min (end_ + (max_extend_length - (start - start_extended)))
            (len (TextDocument_text doc)) in
    exists w,
      get_snippet seg doc max_extend_length = Ok w /\
      w = py_slice (TextDocument_text doc) start_extended end_extended /\
      0 <= start_extended <= start /\
      end_ <= end_extended <= len (TextDocument_text doc) /\
      start - start_extended <= max_extend_length / 2 /\
      len w = end_extended - start_extended /\
      len w <= max_extend_length + (end_ - start) /\
      len w = Z.min (max_extend_length + (end_ - start))
                    (len (TextDocument_text doc) - start_extended).
Proof.
  intros seg doc m s0 rest Hspans Hin Hm start end_ start_extended end_extended.
  assert (Hord : Forall ordered (s0 :: rest)).
  { eapply Forall_impl; [exact Hin|]. unfold within, ordered. intros; lia. }
  destruct (bounding_range_normalized s0 rest Hord)
    as (m0 & mrest & Hmerge & Hmin & Hmax).
  destruct (bounding_range_within _ s0 rest Hin) as (Hlo & Hmid & Hhi).
  fold start in Hlo, Hmid, Hmin. fold end_ in Hmid, Hhi, Hmax.
  assert (Hhalf : 0 <= m / 2 <= m).
  { split; [apply Z.div_pos; lia|]. apply Z.div_le_upper_bound; lia. }
  assert (Hse : 0 <= start_extended <= start) by (unfold start_extended; lia).
  assert (Hee : end_ <= end_extended <= len (TextDocument_text doc))
    by (unfold end_extended, start_extended; lia).
  exists (py_slice (TextDocument_text doc) start_extended end_extended).
  split.
  - unfold get_snippet. rewrite Hspans, normalize_spans_plain, Hmerge.
    rewrite (comprehension_plain "start" Span.start) by reflexivity.
    rewrite (comprehension_plain "end" Span.end_) by reflexivity.
    cbn [map mbind result_bind]. rewrite py_min_cons, py_max_cons.
    cbn [mbind result_bind]. rewrite Hmin, Hmax. reflexivity.
  - split; [reflexivity|].
    rewrite py_slice_length by lia.
    unfold end_extended, start_extended in *. repeat split; lia.
Qed.

(** C3 fails at the end of a document: for the segment on characters 8 to
    10 of a ten-character text and [max_extend_length = 4] the window is
    [text[6:10]], four characters long, although
    [min(4 + 2, 10) = 6]. *)
Lemma get_snippet_clipped_at_document_end :
  get_snippet tail_segment ten_chars_doc 4 = Ok "6789" /\
  ~ snippet_never_shorter tail_segment ten_chars_doc 4 (Span.mk 8 10) [].
Proof.
  split; [reflexivity|].
  intros (w & Hw & Hlen).
  assert (Hv : get_snippet tail_segment ten_chars_doc 4 = Ok "6789")
    by reflexivity.
  rewrite Hv in Hw. injection Hw as <-.
  vm_compute in Hlen. apply Hlen. reflexivity.
Qed.

Lemma get_snippet_window_witness :
  spans head_segment = map ASpan [Span.mk 1 3; Span.mk 3 4] /\
  Forall (within (len (TextDocument_text ten_chars_doc)))
         [Span.mk 1 3; Span.mk 3 4] /\
  0 <= 4 /\
  exists w,
    get_snippet head_segment ten_chars_doc 4 = Ok w /\
    w = "0123456" /\ len w = 7.
Proof.
  split; [reflexivity|].
  split; [repeat constructor; vm_compute; discriminate|].
  split; [lia|].
  destruct (get_snippet_window head_segment ten_chars_doc 4
              (Span.mk 1 3) [Span.mk 3 4])
    as (w & Hw & Heq & _ & _ & _ & Hlen & _).
  - reflexivity.
  - repeat constructor; vm_compute; discriminate.
  - lia.
  - exists w. split; [exact Hw|]. split; [exact Heq|].
    rewrite Hlen. reflexivity.
Defined.

(** ** What changes after construction *)

Lemma keeps_weaken {A} (b : loc) (m : Prog A) (Q Q' : A -> Prop) :
  keeps b m Q -> (forall a, Q a -> Q' a) -> keeps b m Q'.
Proof.
  intros Hm HQ h Hb. destruct (Hm h Hb) as (Hn & Ho & Hr).
  split; [exact Hn|]. split; [exact Ho|]. intros a Ha. apply HQ, Hr, Ha.
Qed.

Lemma keeps_ret {A} (b : loc) (a : A) (Q : A -> Prop) :
  Q a -> keeps b (mret a) Q.
Proof.
  intros HQ h Hb. cbn. split; [lia|]. split; [reflexivity|].
  intros a' Ha. injection Ha as <-. exact HQ.
Qed.

Lemma keeps_lift {A} (b : loc) (r : result A) (Q : A -> Prop) :
  (forall a, r = Ok a -> Q a) -> keeps b (lift_h r) Q.
Proof.
  intros HQ h Hb. cbn. split; [lia|]. split; [reflexivity|exact HQ].
Qed.

Lemma keeps_raise {A} (b : loc) (e : exn) (Q : A -> Prop) :
  keeps b (lift_h (Raise e)) Q.
Proof. apply keeps_lift. intros a Ha. discriminate Ha. Qed.

Lemma keeps_bind {A B} (b : loc) (m : Prog A) (f : A -> Prog B)
    (Q : A -> Prop) (R : B -> Prop) :
  keeps b m Q -> (forall a, Q a -> keeps b (f a) R) -> keeps b (m ≫= f) R.
Proof.
  intros Hm Hf h Hb. destruct (Hm h Hb) as (Hn & Ho & Hr).
  unfold mbind, Prog_bind. destruct (m h) as [h1 [a|e]] eqn:E; cbn in *.
  - destruct (Hf a (Hr a eq_refl) h1 ltac:(lia)) as (Hn' & Ho' & Hr').
    split; [lia|]. split; [|exact Hr'].
    intros l Hl. rewrite Ho' by exact Hl. apply Ho, Hl.
  - split; [exact Hn|]. split; [exact Ho|]. intros a Ha. discriminate Ha.
Qed.

Lemma keeps_fmap {A B} (b : loc) (g : A -> B) (m : Prog A) (Q : A -> Prop) :
  keeps b m Q -> keeps b (g <$> m) any.
Proof.
  intros Hm h Hb. destruct (Hm h Hb) as (Hn & Ho & _).
  unfold fmap, Prog_fmap. destruct (m h) as [h1 [a|e]]; cbn in *;
    (split; [exact Hn|]; split; [exact Ho|]; intros; exact I).
Qed.

Lemma keeps_load (b : loc) (l : loc) : keeps b (load l) any.
Proof.
  intros h Hb. cbn. split; [lia|]. split; [reflexivity|]. intros; exact I.
Qed.

Lemma keeps_alloc (b : loc) (o : pyobj) : keeps b (alloc o) (above b).
Proof.
  intros h Hb. cbn. split; [lia|]. split.
  - intros l Hl. apply lookup_insert_ne. lia.
  - intros a Ha. injection Ha as <-. exact Hb.
Qed.

Lemma keeps_store (b : loc) (l : loc) (o : pyobj) :
  above b l -> keeps b (store l o) any.
Proof.
  intros Hl h Hb. cbn. split; [lia|]. split.
  - intros l' Hl'. apply lookup_insert_ne. unfold above in Hl. lia.
  - intros; exact I.
Qed.

Lemma keeps_getattr (b : loc) (l : loc) (name : string) :
  keeps b (getattr l name) any.
Proof.
  unfold getattr. eapply keeps_bind; [apply keeps_load|].
  intros [items|entries|cls fields] _; try apply keeps_raise.
  destruct (fields !! name); [apply keeps_ret; exact I|].
  destruct (_ || _); apply keeps_raise.
Qed.

Lemma keeps_deref (b : loc) (what : string) (v : pyitem) :
  keeps b (deref what v) any.
Proof.
  destruct v; try apply keeps_raise. apply keeps_ret. exact I.
Qed.

Lemma keeps_list_items (b : loc) (l : loc) : keeps b (list_items l) any.
Proof.
  unfold list_items. eapply keeps_bind; [apply keeps_load|].
  intros [items|entries|cls fields] _; try apply keeps_raise.
  apply keeps_ret. exact I.
Qed.

Lemma keeps_dict_setitem (b : loc) (l : loc) (key : string) (v : pyitem) :
  above b l -> keeps b (dict_setitem l key v) any.
Proof.
  intros Hl. unfold dict_setitem. eapply keeps_bind; [apply keeps_load|].
  intros [items|entries|cls fields] _; try apply keeps_raise.
  apply keeps_store. exact Hl.
Qed.

Lemma keeps_each {A B} (b : loc) (f : A -> Prog B) (l : list A) :
  (forall x, keeps b (f x) any) -> keeps b (each f l) any.
Proof.
  intros Hf. induction l as [|x l IH]; cbn [each].
  - apply keeps_ret. exact I.
  - eapply keeps_bind; [apply Hf|]. intros y _.
    eapply keeps_bind; [apply IH|]. intros ys _. apply keeps_ret. exact I.
Qed.

Lemma keeps_item_getattr (b : loc) (s : pyitem) (name : string) :
  keeps b (item_getattr s name) any.
Proof.
  destruct s; cbn [item_getattr]; try apply keeps_raise.
  - apply keeps_lift. intros; exact I.
  - apply keeps_getattr.
Qed.

Lemma keeps_item_call (b : loc) (s : pyitem) (name : string) :
  keeps b (item_call s name) any.
Proof.
  unfold item_call. eapply keeps_bind; [apply keeps_item_getattr|].
  intros _ _. apply keeps_raise.
Qed.

Lemma keeps_item_int (b : loc) (what : string) (v : pyitem) :
  keeps b (item_int what v) any.
Proof. destruct v; try apply keeps_raise. apply keeps_ret. exact I. Qed.

Lemma keeps_item_str (b : loc) (what : string) (v : pyitem) :
  keeps b (item_str what v) any.
Proof. destruct v; try apply keeps_raise. apply keeps_ret. exact I. Qed.

Lemma keeps_attr_to_dict (b : loc) (a : pyitem) :
  keeps b (attr_to_dict_h a) any.
Proof.
  destruct a; cbn [attr_to_dict_h]; try apply keeps_item_call.
  eapply keeps_fmap. apply keeps_alloc.
Qed.

Lemma keeps_Annotation_to_dict (b : loc) (self : loc) :
  keeps b (Annotation_to_dict_h self) (above b).
Proof.
  unfold Annotation_to_dict_h.
  eapply keeps_bind; [apply keeps_load|]. intros o _.
  eapply keeps_bind.
  { instantiate (1 := any). destruct o; try apply keeps_raise.
    apply keeps_ret. exact I. }
  intros cls _.
  eapply keeps_bind; [apply keeps_getattr|]. intros uid _.
  eapply keeps_bind; [apply keeps_getattr|]. intros label _.
  eapply keeps_bind.
  { eapply keeps_bind; [apply keeps_getattr|]. intros v _. apply keeps_deref. }
  intros attrs_ref _.
  eapply keeps_bind; [apply keeps_list_items|]. intros attrs _.
  eapply keeps_bind; [apply keeps_each, keeps_attr_to_dict|]. intros dicts _.
  eapply keeps_bind; [apply keeps_alloc|]. intros attrs_list _.
  eapply keeps_bind; [apply keeps_getattr|]. intros metadata _.
  apply keeps_alloc.
Qed.

Lemma keeps_Segment_to_dict (b : loc) (self : loc) :
  keeps b (Segment_to_dict_h self) any.
Proof.
  unfold Segment_to_dict_h.
  eapply keeps_bind; [apply keeps_Annotation_to_dict|]. intros data Hdata.
  eapply keeps_bind.
  { eapply keeps_bind; [apply keeps_getattr|]. intros v _. apply keeps_deref. }
  intros spans_ref _.
  eapply keeps_bind; [apply keeps_list_items|]. intros items _.
  eapply keeps_bind.
  { apply keeps_each. intros s. apply keeps_item_call. }
  intros spans _.
  eapply keeps_bind; [apply keeps_alloc|]. intros spans_list _.
  eapply keeps_bind; [apply keeps_getattr|]. intros text _.
  eapply keeps_bind; [apply keeps_dict_setitem; exact Hdata|]. intros _ _.
  eapply keeps_bind; [apply keeps_dict_setitem; exact Hdata|]. intros _ _.
  apply keeps_ret. exact I.
Qed.

Lemma keeps_Relation_to_dict (b : loc) (self : loc) :
  keeps b (Relation_to_dict_h self) any.
Proof.
  unfold Relation_to_dict_h.
  eapply keeps_bind; [apply keeps_Annotation_to_dict|]. intros data Hdata.
  eapply keeps_bind; [apply keeps_getattr|]. intros source_id _.
  eapply keeps_bind; [apply keeps_getattr|]. intros target_id _.
  eapply keeps_bind; [apply keeps_dict_setitem; exact Hdata|]. intros _ _.
  eapply keeps_bind; [apply keeps_dict_setitem; exact Hdata|]. intros _ _.
  apply keeps_ret. exact I.
Qed.

Lemma keeps_TextDocument_text (b : loc) (doc : loc) :
  keeps b (TextDocument_text_h doc) any.
Proof.
  unfold TextDocument_text_h.
  eapply keeps_bind.
  { eapply keeps_bind; [apply keeps_getattr|]. intros v _. apply keeps_deref. }
  intros raw _.
  eapply keeps_bind; [apply keeps_getattr|]. intros v _. apply keeps_item_str.
Qed.

Lemma keeps_get_snippet (b : loc) (self doc : loc) (n : Z) :
  keeps b (get_snippet_h self doc n) any.
Proof.
  unfold get_snippet_h.
  eapply keeps_bind.
  { eapply keeps_bind; [apply keeps_getattr|]. intros v _. apply keeps_deref. }
  intros spans_ref _.
  eapply keeps_bind.
  { eapply keeps_bind.
    - unfold normalize_spans_h.
      eapply keeps_bind; [apply keeps_list_items|]. intros items _.
      apply keeps_alloc.
    - intros l _. apply keeps_list_items. }
  intros spans_normalized _.
  eapply keeps_bind.
  { apply keeps_each. intros s.
    eapply keeps_bind; [apply keeps_item_getattr|]. intros v _.
    apply keeps_item_int. }
  intros starts _.
  eapply keeps_bind; [apply keeps_lift; intros; exact I|]. intros start _.
  eapply keeps_bind.
  { apply keeps_each. intros s.
    eapply keeps_bind; [apply keeps_item_getattr|]. intros v _.
    apply keeps_item_int. }
  intros ends _.
  eapply keeps_bind; [apply keeps_lift; intros; exact I|]. intros end_ _.
  eapply keeps_bind; [apply keeps_TextDocument_text|]. intros t1 _.
  eapply keeps_bind; [apply keeps_TextDocument_text|]. intros t2 _.
  apply keeps_ret. exact I.
Qed.

Lemma keeps_to_dict (b : loc) (self : loc) : keeps b (to_dict_h self) any.
Proof.
  unfold to_dict_h. eapply keeps_bind; [apply keeps_load|].
  intros [items|entries|cls fields] _; try apply keeps_raise.
  destruct (fields !! "to_dict"); [apply keeps_raise|].
  repeat (destruct (decide _); [first
    [ apply keeps_Segment_to_dict | apply keeps_Relation_to_dict ]|]).
  apply keeps_raise.
Qed.

Lemma keeps_get_snippet_method (b : loc) (self doc : loc) (n : Z) :
  keeps b (get_snippet_method self doc n) any.
Proof.
  unfold get_snippet_method. eapply keeps_bind; [apply keeps_load|].
  intros [items|entries|cls fields] _; try apply keeps_raise.
  destruct (fields !! "get_snippet"); [apply keeps_raise|].
  repeat (destruct (decide _); [first
    [ apply keeps_get_snippet | apply keeps_raise ]|]).
  apply keeps_raise.
Qed.

Lemma writes_only_list_append (w : loc) (v : pyitem) :
  writes_only w (list_append w v).
Proof.
  intros h l Hl. unfold list_append, load, mbind, Prog_bind.
  destruct (objs h !! w) as [[items|entries|cls fields]|]; cbn;
    try reflexivity.
  apply lookup_insert_ne. congruence.
Qed.

Lemma writes_only_dict_setitem (w : loc) (key : string) (v : pyitem) :
  writes_only w (dict_setitem w key v).
Proof.
  intros h l Hl. unfold dict_setitem, load, mbind, Prog_bind.
  destruct (objs h !! w) as [[items|entries|cls fields]|]; cbn;
    try reflexivity.
  apply lookup_insert_ne. congruence.
Qed.

(** An update in place of the container held in the field [name] changes
    that container only. *)
Lemma update_in_place (h : heap) (self : loc) (name : string)
    (f : loc -> Prog unit) (l : loc) :
  (forall w, writes_only w (f w)) ->
  (forall cls fields w,
     objs h !! self = Some (OInstance cls fields) ->
     fields !! name = Some (IRef w) -> l <> w) ->
  objs ((w ← getattr self name ≫= deref name; f w;; mret INone) h).1 !! l
  = objs h !! l.
Proof.
  intros Hf Hsep. unfold getattr, load, mbind, Prog_bind.
  destruct (objs h !! self) as [[items|entries|cls fields]|] eqn:Hself; cbn;
    try reflexivity.
  destruct (fields !! name) as [v|] eqn:Hname; cbn.
  - destruct v; cbn; try reflexivity.
    specialize (Hf l0 h l (Hsep _ _ _ eq_refl Hname)).
    destruct (f l0 h) as [h1 [[]|e]]; cbn in *; exact Hf.
  - destruct (_ || _); reflexivity.
Qed.

Lemma mapM_agree {A B} (f g : A -> option B) (l : list A) :
  (forall x, x ∈ l -> f x = g x) -> mapM f l = mapM g l.
Proof.
  induction l as [|x l IH]; intros H; [reflexivity|].
  cbn. rewrite (H x) by apply list_elem_of_here.
  rewrite IH; [reflexivity|]. intros y Hy. apply H, list_elem_of_further, Hy.
Qed.

Lemma read_span_agree (h h' : heap) (v : pyitem) :
  (forall l, l ∈ span_locs h v -> objs h' !! l = objs h !! l) ->
  read_span h' v = read_span h v.
Proof.
  intros H. destruct v; try reflexivity. cbn in *.
  rewrite (H l) by apply list_elem_of_here.
  destruct (objs h !! l) as [[items|entries|cls fields]|]; try reflexivity.
  destruct (fields !! "length") as [[]|]; try reflexivity.
  destruct (fields !! "replaced_spans") as [[]|]; try reflexivity.
  rewrite (H l0); [reflexivity|].
  apply list_elem_of_further, list_elem_of_here.
Qed.

(** The identity depends on the objects of the footprint only. *)
Lemma identity_agree (h h' : heap) (self : loc) :
  (forall l, l ∈ footprint h self -> objs h' !! l = objs h !! l) ->
  identity_at h' self = identity_at h self.
Proof.
  intros H. unfold identity_at, footprint in *.
  rewrite (H self) by apply list_elem_of_here.
  destruct (objs h !! self) as [[items|entries|cls fields]|]; try reflexivity.
  destruct (fields !! "uid") as [[]|]; try reflexivity.
  destruct (fields !! "label") as [[]|]; try reflexivity.
  destruct (fields !! "spans") as [[]|]; try reflexivity.
  destruct (fields !! "text") as [[]|]; try reflexivity.
  unfold read_spans.
  rewrite (H l) by apply list_elem_of_further, list_elem_of_here.
  destruct (objs h !! l) as [[items|entries|cls' fields']|] eqn:Hl;
    try reflexivity.
  rewrite (mapM_agree (read_span h') (read_span h)); [reflexivity|].
  intros x Hx. apply read_span_agree. intros l' Hl'.
  apply H. do 2 apply list_elem_of_further.
  apply list_elem_of_In, in_flat_map. exists x.
  split; apply list_elem_of_In; assumption.
Qed.

Lemma read_span_live (h : heap) (v : pyitem) (s : AnySpanType) :
  read_span h v = Some s ->
  forall l, l ∈ span_locs h v -> is_Some (objs h !! l).
Proof.
  intros Hs l Hl. destruct v; cbn in *; try discriminate Hs.
  - apply elem_of_nil in Hl. contradiction.
  - apply elem_of_cons in Hl as [->|Hl].
    + destruct (objs h !! l0); [eexists; reflexivity|discriminate Hs].
    + destruct (objs h !! l0) as [[items|entries|cls fields]|];
        try (apply elem_of_nil in Hl; contradiction).
      destruct (fields !! "length") as [[]|]; try discriminate Hs.
      destruct (fields !! "replaced_spans") as [[]|]; try discriminate Hs.
      apply list_elem_of_singleton in Hl as ->.
      destruct (objs h !! l1); [eexists; reflexivity|discriminate Hs].
Qed.

Lemma read_spans_live (h : heap) (items : list pyitem)
    (spans : list AnySpanType) :
  mapM (read_span h) items = Some spans ->
  forall l, l ∈ flat_map (span_locs h) items -> is_Some (objs h !! l).
Proof.
  revert spans. induction items as [|x items IH]; intros spans Hs l Hl.
  - apply elem_of_nil in Hl. contradiction.
  - cbn in Hs, Hl.
    destruct (read_span h x) as [s|] eqn:Hx; [|discriminate Hs].
    apply elem_of_app in Hl as [Hl|Hl].
    + eapply read_span_live; eassumption.
    + cbn in Hs. destruct (mapM (read_span h) items) as [ss|];
        [|discriminate Hs].
      eapply IH; [reflexivity|exact Hl].
Qed.

(** Where the identity can be read, every object it is read from exists. *)
Lemma footprint_live (h : heap) (self : loc) (id : identity) :
  identity_at h self = Some id ->
  forall l, l ∈ footprint h self -> is_Some (objs h !! l).
Proof.
  intros Hid l Hl. unfold identity_at, footprint in *.
  destruct (objs h !! self) as [[items|entries|cls fields]|] eqn:Hself;
    try discriminate Hid.
  apply elem_of_cons in Hl as [->|Hl]; [rewrite Hself; eexists; reflexivity|].
  destruct (fields !! "uid") as [[]|]; try discriminate Hid.
  destruct (fields !! "label") as [[]|]; try discriminate Hid.
  destruct (fields !! "spans") as [[]|];
    try (apply elem_of_nil in Hl; contradiction).
  apply elem_of_cons in Hl as [->|Hl].
  - destruct (fields !! "text") as [[]|]; try discriminate Hid.
    unfold read_spans in Hid.
    destruct (objs h !! l0); [eexists; reflexivity|discriminate Hid].
  - destruct (fields !! "text") as [[]|]; try discriminate Hid.
    unfold read_spans in Hid.
    destruct (objs h !! l0) as [[items|entries|cls' fields']|];
      try discriminate Hid.
    destruct (mapM (read_span h) items) as [ss|] eqn:Hss;
      [|discriminate Hid].
    eapply read_spans_live; eassumption.
Qed.

(** A program that changes nothing below the next free location keeps the
    identity of every annotation of an allocated heap. *)
Lemma keeps_identity {A} (m : Prog A) (h : heap) (self : loc)
    (id : identity) :
  (forall b, keeps b m any) ->
  allocated h ->
  identity_at h self = Some id ->
  identity_at (m h).1 self = Some id.
Proof.
  intros Hm Halloc Hid. rewrite <- Hid. apply identity_agree.
  intros l Hl. destruct (Hm (next_loc h) h (le_n _)) as (_ & Ho & _).
  apply Ho. destruct (footprint_live h self id Hid l Hl) as [o Ho'].
  exact (Halloc l o Ho').
Qed.

(** C8, amended.  The methods of an annotation ([to_dict], [get_snippet]),
    [attrs.append] and [metadata[key] = v] leave its class, uid, label and,
    for a segment or an entity, its spans and text as they are, on every
    heap on which the [attrs] list and the [metadata] dict are not among
    the objects the spans are read from. *)
Theorem api_calls_keep_identity (h : heap) (self : loc) (c : api_call)
    (id : identity) :
  allocated h -> separated h self ->
  identity_at h self = Some id ->
  identity_at (run_call c self h).1 self = Some id.
Proof.
  intros Halloc Hsep Hid. destruct c as [|doc n|a|key v]; cbn [run_call].
  - apply keeps_identity; [|assumption..].
    intros b. eapply keeps_fmap, keeps_to_dict.
  - apply keeps_identity; [|assumption..].
    intros b. eapply keeps_fmap, keeps_get_snippet_method.
  - rewrite <- Hid. apply identity_agree. intros l Hl.
    apply (update_in_place h self "attrs" (fun w => list_append w a)).
    + intros w. apply writes_only_list_append.
    + intros cls fields w Hself Hw ->.
      exact (Hsep cls fields "attrs" w Hself (or_introl eq_refl) Hw Hl).
  - rewrite <- Hid. apply identity_agree. intros l Hl.
    apply (update_in_place h self "metadata"
             (fun w => dict_setitem w key v)).
    + intros w. apply writes_only_dict_setitem.
    + intros cls fields w Hself Hw ->.
      exact (Hsep cls fields "metadata" w Hself (or_intror eq_refl) Hw Hl).
Qed.

Lemma allocatedb_allocated (h : heap) : allocatedb h = true -> allocated h.
Proof.
  intros H l o Hl. apply bool_decide_eq_true in H. exact (H l o Hl).
Qed.

Lemma separatedb_separated (h : heap) (self : loc) :
  separatedb h self = true -> separated h self.
Proof.
  unfold separatedb. intros H cls fields name l Hself Hname Hl.
  rewrite Hself in H. cbn [forallb] in H.
  apply andb_true_iff in H as [Ha H]. apply andb_true_iff in H as [Hm _].
  destruct Hname as [-> | ->].
  - rewrite Hl in Ha. apply bool_decide_eq_true in Ha. exact Ha.
  - rewrite Hl in Hm. apply bool_decide_eq_true in Hm. exact Hm.
Qed.

Example language_entity_built :
  identity_at language_entity_heap 1%nat
  = Some (language_identity [ASpan (Span.mk 22 28)]) /\
  objs language_entity_heap !! 0%nat = Some (OList [ISpan (Span.mk 22 28)]) /\
  objs language_entity_heap !! 2%nat = Some (OList []) /\
  objs language_entity_heap !! 3%nat = Some (ODict ∅) /\
  footprint language_entity_heap 1%nat = [1%nat; 0%nat] /\
  next_loc language_entity_heap = 4%nat.
Proof. repeat split; vm_compute; reflexivity. Qed.

(** The heap of the entity holds what the constructor of the record model
    gives. *)
Example language_entity_heap_agrees :
  match language_entity with
  | TASegment s =>
    identity_at language_entity_heap 1%nat
    = Some (SegmentIdentity (SegmentClass_name (seg_class s))
              (uid (seg_ann s)) (label (seg_ann s)) (spans s) (text s))
  | TARelation _ => False
  end.
Proof. vm_compute. reflexivity. Qed.

(** On these objects the methods give what they give on the records. *)
Example methods_on_heap_agree :
  (run_call (Call_get_snippet 4%nat 4) 6%nat ten_chars_heap).2
  = IStr <$> get_snippet tail_segment ten_chars_doc 4 /\
  (run_call Call_to_dict 6%nat ten_chars_heap).2
  = (fun _ => INone) <$> Segment_to_dict tail_segment /\
  identity_at ten_chars_heap 6%nat
  = Some (SegmentIdentity "Segment" "s1" "X" [ASpan (Span.mk 8 10)] "89").
Proof. repeat split; vm_compute; reflexivity. Qed.

(** The side condition is needed: when the list of the spans is also the
    list of the attributes, [attrs.append] changes the spans. *)
Example aliased_attrs_change_spans :
  identity_at aliased_entity_heap 1%nat
  = Some (language_identity [ASpan (Span.mk 22 28)]) /\
  identity_at
    (run_call (Attrs_append (ISpan (Span.mk 30 36))) 1%nat
              aliased_entity_heap).1 1%nat
  = Some (language_identity [ASpan (Span.mk 22 28); ASpan (Span.mk 30 36)]) /\
  separatedb aliased_entity_heap 1%nat = false.
Proof. repeat split; vm_compute; reflexivity. Qed.

Lemma api_calls_keep_identity_witness :
  allocated language_entity_heap /\
  separated language_entity_heap 1%nat /\
  identity_at language_entity_heap 1%nat
  = Some (language_identity [ASpan (Span.mk 22 28)]) /\
  identity_at
    (run_call (Attrs_append (IAttr negation_attribute)) 1%nat
              language_entity_heap).1 1%nat
  = Some (language_identity [ASpan (Span.mk 22 28)]) /\
  identity_at (run_call Call_to_dict 1%nat language_entity_heap).1 1%nat
  = Some (language_identity [ASpan (Span.mk 22 28)]).
Proof.
  assert (Ha : allocated language_entity_heap)
    by (apply allocatedb_allocated; vm_compute; reflexivity).
  assert (Hs : separated language_entity_heap 1%nat)
    by (apply separatedb_separated; vm_compute; reflexivity).
  assert (Hi : identity_at language_entity_heap 1%nat
               = Some (language_identity [ASpan (Span.mk 22 28)]))
    by (vm_compute; reflexivity).
  split; [exact Ha|]. split; [exact Hs|]. split; [exact Hi|]. split.
  - exact (api_calls_keep_identity language_entity_heap 1%nat
             (Attrs_append (IAttr negation_attribute)) _ Ha Hs Hi).
  - exact (api_calls_keep_identity language_entity_heap 1%nat
             Call_to_dict _ Ha Hs Hi).
Defined.

(** C8 fails.  The spans of an entity that is built change when
    [entity.spans = [Span(5, 11)]] replaces the list, and when the caller
    appends to the list it gave to the constructor, which the entity
    shares. *)
Lemma spans_change_after_construction :
  identity_at
    (run_client (Assign_list "spans" [ISpan (Span.mk 5 11)]) 1%nat
                language_entity_heap).1 1%nat
  = Some (language_identity [ASpan (Span.mk 5 11)]) /\
  identity_at
    (run_client (Append_to 0%nat (ISpan (Span.mk 30 36))) 1%nat
                language_entity_heap).1 1%nat
  = Some (language_identity [ASpan (Span.mk 22 28); ASpan (Span.mk 30 36)]) /\
  ~ identity_is_fixed.
Proof.
  split; [vm_compute; reflexivity|]. split; [vm_compute; reflexivity|].
  intros H.
  assert (Ha : allocated language_entity_heap)
    by (apply allocatedb_allocated; vm_compute; reflexivity).
  assert (Hs : separated language_entity_heap 1%nat)
    by (apply separatedb_separated; vm_compute; reflexivity).
  assert (Hi : identity_at language_entity_heap 1%nat
               = Some (language_identity [ASpan (Span.mk 22 28)]))
    by (vm_compute; reflexivity).
  specialize (H language_entity_heap 1%nat
                (Append_to 0%nat (ISpan (Span.mk 30 36))) _ Ha Hs Hi).
  vm_compute in H. discriminate H.
Qed.

(** ** The constructors on the inputs used below *)

Example cat_segment_constructed :
  Segment_init (fun _ => "fresh") CSegment
    [("label", AStr "X"); ("spans", ASpans [ASpan (Span.mk 4 7)]);
     ("text", AStr "cat"); ("ann_id", AStr "s1")] 0%nat
  = Ok (cat_segment, 0%nat).
Proof. reflexivity. Qed.

Example language_entity_constructed :
  TASegment <$>
    (fst <$> Entity_init (fun _ => "e2")
               [("label", AStr "language");
                ("spans", ASpans [ASpan (Span.mk 22 28)]);
                ("text", AStr "python")] 0%nat)
  = Ok language_entity.
Proof. reflexivity. Qed.

Example Segment_rejects_uid_keyword :
  Segment_init (fun _ => "fresh") CSegment
    [("label", AStr "X"); ("spans", ASpans [ASpan (Span.mk 4 7)]);
     ("text", AStr "cat"); ("uid", AStr "s1")] 0%nat
  = Raise (TypeError_unexpected_keyword "Segment.__init__" "uid").
Proof. reflexivity. Qed.

Example Segment_requires_spans :
  Segment_init (fun _ => "fresh") CSegment
    [("label", AStr "X"); ("text", AStr "cat")] 0%nat
  = Raise (TypeError_missing_argument "Segment.__init__" "spans").
Proof. reflexivity. Qed.

Example Span_rejects_third_argument :
  Span_new [AInt 0; AInt 1; AInt 2] []
  = Raise (TypeError_too_many_positional "Span.__new__").
Proof. reflexivity. Qed.

(** ** Serialising a segment *)

Lemma span_to_dict_raises (s : AnySpanType) :
  call_attr (A := pyval) "to_dict" (AnySpan_getattr s "to_dict")
  = Raise (AttributeError (span_class_name s) "to_dict").
Proof. destruct s; reflexivity. Qed.

(** Without spans the comprehension calls nothing and the dict is built. *)
Lemma Segment_to_dict_without_spans (seg : Segment) :
  spans seg = [] ->
  Segment_to_dict seg
  = Ok (<["text" := VStr (text seg)]>
          (<["spans" := VList []]>
             (Annotation_to_dict (SegmentClass_name (seg_class seg))
                                 (seg_ann seg)))).
Proof. intros H. unfold Segment_to_dict. rewrite H. reflexivity. Qed.

(** C5 does not hold of the code.  [Segment.to_dict] calls [to_dict] on
    each span, and neither [Span] nor [ModifiedSpan] defines it: for every
    segment that has a span the call raises [AttributeError] on the first
    one and no mapping is returned. *)
Theorem Segment_to_dict_raises_on_first_span :
  forall (seg : Segment) (s : AnySpanType) (rest : list AnySpanType),
    spans seg = s :: rest ->
    Segment_to_dict seg = Raise (AttributeError (span_class_name s) "to_dict").
Proof.
  intros seg s rest H. unfold Segment_to_dict. rewrite H.
  cbn [comprehension]. rewrite span_to_dict_raises. reflexivity.
Qed.

Lemma Segment_to_dict_raises_on_first_span_witness :
  spans cat_segment = [ASpan (Span.mk 4 7)] /\
  Segment_to_dict cat_segment = Raise (AttributeError "Span" "to_dict").
Proof.
  split; [reflexivity|].
  apply (Segment_to_dict_raises_on_first_span cat_segment
           (ASpan (Span.mk 4 7)) []).
  reflexivity.
Defined.

(** C2 does not hold of the code.  For a segment and for an entity with
    one span, [to_dict] raises, so there is no dict to load back; the same
    happens with a [ModifiedSpan]. *)
Theorem round_trip_stops_in_Segment_to_dict :
  Segment_to_dict cat_segment = Raise (AttributeError "Span" "to_dict") /\
  Segment_to_dict cat_entity = Raise (AttributeError "Span" "to_dict") /\
  Segment_to_dict normalized_segment
  = Raise (AttributeError "ModifiedSpan" "to_dict") /\
  (forall d, Segment_to_dict cat_segment <> Ok d).
Proof.
  repeat split; try reflexivity.
  intros d H. discriminate H.
Qed.

(** ** Constructing a document *)

Lemma generate_raw_segment_raises (fresh_id : nat -> string)
    (getrandbits128 : string -> Z) (text doc_id : string) (n : nat) :
  _generate_raw_segment fresh_id getrandbits128 text doc_id n
  = Raise (raw_segment_failure getrandbits128 doc_id).
Proof.
  unfold _generate_raw_segment, raw_segment_failure.
  unfold mbind at 1, M_bind, lift at 1.
  destruct (raw_segment_uid getrandbits128 doc_id); reflexivity.
Qed.

Lemma raw_segment_failure_in_range (getrandbits128 : string -> Z)
    (doc_id : string) :
  0 <= getrandbits128 doc_id < 2 ^ 128 ->
  raw_segment_failure getrandbits128 doc_id
  = TypeError_unexpected_keyword "Segment.__init__" "uid".
Proof.
  intros [Hlo Hhi]. unfold raw_segment_failure, raw_segment_uid, uuid_str.
  destruct (Z.leb_spec 0 (getrandbits128 doc_id)); [|lia].
  destruct (Z.ltb_spec (getrandbits128 doc_id) (2 ^ 128)); [|lia].
  reflexivity.
Qed.

Lemma TextDocument_init_text_uid (fresh_id : nat -> string)
    (getrandbits128 : string -> Z) (t u : string) (n : nat) :
  TextDocument_init fresh_id getrandbits128
    [("text", AStr t); ("uid", AStr u)] n
  = Raise (raw_segment_failure getrandbits128 u).
Proof.
  unfold TextDocument_init.
  change (bind_kwargs TextDocument_sig [("text", AStr t); ("uid", AStr u)])
    with (Ok (list_to_map [("text", AStr t); ("uid", AStr u)]
              : gmap string pyarg)).
  unfold mbind, M_bind, lift, mret, M_ret.
  change (param (list_to_map [("text", AStr t); ("uid", AStr u)]) "anns")
    with ANone.
  change (param (list_to_map [("text", AStr t); ("uid", AStr u)]) "metadata")
    with ANone.
  change (param (list_to_map [("text", AStr t); ("uid", AStr u)]) "uid")
    with (AStr u).
  change (param (list_to_map [("text", AStr t); ("uid", AStr u)]) "text")
    with (AStr t).
  cbn [as_str].
  rewrite generate_raw_segment_raises. reflexivity.
Qed.

Lemma raises_bind {A B} (m : M A) (f : A -> M B) (n : nat) :
  (forall a n', raises (f a n')) -> raises ((m ≫= f) n).
Proof.
  intros Hf. unfold mbind, M_bind.
  destruct (m n) as [[a n']|e]; [apply Hf|exact I].
Qed.

(** C4 does not hold of the code.  No call of the constructor returns a
    document, whatever the text and the other arguments: each call raises,
    at the latest when [_generate_raw_segment] passes the keyword [uid] to
    [Segment].  So no raw segment with the label [RAW_TEXT], the text and
    the span [Span(0, len(text))] is ever built.  The [text] property, for
    its part, reads [raw_segment.text]. *)
Theorem TextDocument_init_always_raises :
  forall (fresh_id : nat -> string) (getrandbits128 : string -> Z)
         (kw : kwargs) (n : nat),
    raises (TextDocument_init fresh_id getrandbits128 kw n) /\
    (forall t : string,
        TextDocument_init fresh_id getrandbits128 [("text", AStr t)] n
        = Raise (raw_segment_failure getrandbits128 (fresh_id n))) /\
    (forall doc : TextDocument,
        TextDocument_text doc = text (raw_segment doc)).
Proof.
  intros fresh_id getrandbits128 kw n. split; [|split].
  - unfold TextDocument_init.
    apply raises_bind; intros a n1.
    apply raises_bind; intros anns n2.
    apply raises_bind; intros metadata n3.
    apply raises_bind; intros uid n4.
    apply raises_bind; intros text n5.
    unfold mbind, M_bind. rewrite generate_raw_segment_raises. exact I.
  - intros t. unfold TextDocument_init.
    change (bind_kwargs TextDocument_sig [("text", AStr t)])
      with (Ok (list_to_map [("text", AStr t)] : gmap string pyarg)).
    unfold mbind, M_bind, lift, mret, M_ret, generate_id.
    change (param (list_to_map [("text", AStr t)]) "anns") with ANone.
    change (param (list_to_map [("text", AStr t)]) "metadata") with ANone.
    change (param (list_to_map [("text", AStr t)]) "uid") with ANone.
    change (param (list_to_map [("text", AStr t)]) "text") with (AStr t).
    cbn [as_str].
    rewrite generate_raw_segment_raises. reflexivity.
  - reflexivity.
Qed.

(** C1 does not hold of the code.  Constructing a document with the uid
    [u] twice, from any states of the identifier source, raises both times
    with the same exception: no raw segment exists whose uid could be
    compared.  The identifier itself is computed from [u] alone before the
    failing call. *)
Theorem TextDocument_init_twice_raises :
  forall (fresh_id : nat -> string) (getrandbits128 : string -> Z)
         (t u : string) (n1 n2 : nat),
    TextDocument_init fresh_id getrandbits128
      [("text", AStr t); ("uid", AStr u)] n1
    = Raise (raw_segment_failure getrandbits128 u) /\
    TextDocument_init fresh_id getrandbits128
      [("text", AStr t); ("uid", AStr u)] n2
    = Raise (raw_segment_failure getrandbits128 u).
Proof. intros. split; apply TextDocument_init_text_uid. Qed.

(** C9 does not hold of the code.  Two documents with the same uid and
    different texts cannot be compared either: both constructions raise
    the same exception, which does not depend on the text. *)
Theorem TextDocument_init_two_texts_raise :
  forall (fresh_id : nat -> string) (getrandbits128 : string -> Z)
         (t1 t2 u : string) (n : nat),
    TextDocument_init fresh_id getrandbits128
      [("text", AStr t1); ("uid", AStr u)] n
    = Raise (raw_segment_failure getrandbits128 u) /\
    TextDocument_init fresh_id getrandbits128
      [("text", AStr t2); ("uid", AStr u)] n
    = Raise (raw_segment_failure getrandbits128 u).
Proof. intros. split; apply TextDocument_init_text_uid. Qed.

(** With a generator that draws inside 128 bits, as the one of the runtime
    does, the exception is the [TypeError] of the rejected keyword. *)
Lemma TextDocument_hello_raises_TypeError :
  TextDocument_init (fun _ => "fresh") (fun _ => 2 ^ 127 + 255)
    [("text", AStr "hello"); ("uid", AStr "d1")] 0%nat
  = Raise (TypeError_unexpected_keyword "Segment.__init__" "uid").
Proof. reflexivity. Qed.

(** ** The identifier format *)

Example uuid_str_zero :
  uuid_str 0 = Ok "00000000-0000-0000-0000-000000000000".
Proof. reflexivity. Qed.

Example uuid_str_high_bit :
  uuid_str (2 ^ 127 + 255) = Ok "80000000-0000-0000-0000-0000000000ff".
Proof. reflexivity. Qed.

Example uuid_str_out_of_range : raises (uuid_str (2 ^ 128)).
Proof. exact I. Qed.

(** The derived identifier reads the document identifier only. *)
Lemma raw_segment_uid_extensional (g1 g2 : string -> Z) (doc_id : string) :
  g1 doc_id = g2 doc_id -> raw_segment_uid g1 doc_id = raw_segment_uid g2 doc_id.
Proof. intros H. unfold raw_segment_uid. rewrite H. reflexivity. Qed.

(** ** More on attributes *)

Lemma Attribute_to_dict_lookups (a : Attribute) :
  Attribute_to_dict a !! class_name_key = Some (VStr (attr_class a)) /\
  Attribute_to_dict a !! "uid" = Some (VStr (attr_uid a)) /\
  Attribute_to_dict a !! "label" = Some (VStr (attr_label a)) /\
  Attribute_to_dict a !! "value" = Some (attr_value_ a) /\
  Attribute_to_dict a !! "metadata" = Some (VDict (attr_metadata a)).
Proof. destruct a. repeat split; reflexivity. Qed.

Lemma Attribute_to_dict_inj (a b : Attribute) :
  Attribute_to_dict a = Attribute_to_dict b -> a = b.
Proof.
  intros H.
  destruct (Attribute_to_dict_lookups a) as (Hc & Hu & Hl & Hv & Hm).
  destruct (Attribute_to_dict_lookups b) as (Hc' & Hu' & Hl' & Hv' & Hm').
  rewrite H in Hc, Hu, Hl, Hv, Hm.
  destruct a, b; simpl in *. congruence.
Qed.

(** X2.  [Attribute.to_dict] loses nothing: its dict has exactly the keys
    [class_name], [uid], [label], [value] and [metadata], and two
    attributes with the same dict are the same attribute. *)
Theorem Attribute_to_dict_injective :
  forall a b : Attribute,
    dom (Attribute_to_dict a)
    = ({[ "class_name"; "uid"; "label"; "value"; "metadata" ]} : gset string) /\
    (Attribute_to_dict a = Attribute_to_dict b -> a = b).
Proof.
  intros a b. split; [|apply Attribute_to_dict_inj].
  unfold Attribute_to_dict, add_class_name_to_data_dict, class_name_key.
  rewrite dom_insert_L. cbn [list_to_map foldr].
  rewrite !dom_insert_L, dom_empty_L. set_solver.
Qed.

Lemma Attribute_round_trip_witness :
  attr_class negation_attribute = Attribute_class /\
  Attribute_from_dict (fun _ => "fresh") one_subclass_registry Attribute_class
    (Attribute_to_dict negation_attribute) 5%nat
  = Ok (negation_attribute, 5%nat).
Proof.
  split; [reflexivity|].
  apply (Attribute_round_trip (fun _ => "fresh") one_subclass_registry
           negation_attribute 5%nat).
  reflexivity.
Defined.




(** ** More on segments *)

(** X5.  [Entity(...)] builds what [Segment(...)] builds from the same
    arguments, as an [Entity], and draws the same identifiers; its
    identifier keyword is [entity_id], and it rejects [ann_id] just as
    [Segment] rejects [entity_id]. *)
Theorem Entity_init_as_Segment_init :
  forall (fresh_id : nat -> string) (l t : string) (sp : list AnySpanType)
         (attrs : option (list Attribute)) (id : option string)
         (metadata : option (gmap string pyval)) (n : nat),
    let common :=
      [("label", AStr l); ("spans", ASpans sp); ("text", AStr t);
       ("attrs", opt_arg AAttrs attrs); ("metadata", opt_arg AMeta metadata)] in
    Entity_init fresh_id (common ++ [("entity_id", opt_arg AStr id)]) n
    = (fun r => (mkSegment CEntity (seg_ann r.1) (spans r.1) (text r.1), r.2))
        <$> Segment_init fresh_id CSegment
              (common ++ [("ann_id", opt_arg AStr id)]) n /\
    Entity_init fresh_id (common ++ [("ann_id", opt_arg AStr id)]) n
    = Raise (TypeError_unexpected_keyword "Entity.__init__" "ann_id") /\
    Segment_init fresh_id CSegment (common ++ [("entity_id", opt_arg AStr id)]) n
    = Raise (TypeError_unexpected_keyword "Segment.__init__" "entity_id").
Proof.
  intros fresh_id l t sp attrs id metadata n common. subst common.
  destruct attrs, id, metadata; repeat split; reflexivity.
Qed.

(** X6.  The constructor of [Segment] checks nothing about its spans and
    its text: any span list, the empty one included, and any text are
    stored as given.  On a segment without spans [get_snippet] fails with
    [ValueError], whatever the document and the length asked for. *)
Theorem Segment_init_validates_nothing :
  forall (fresh_id : nat -> string) (l t : string) (sp : list AnySpanType)
         (n : nat) (doc : TextDocument) (max_extend_length : Z),
    Segment_init fresh_id CSegment
      [("label", AStr l); ("spans", ASpans sp); ("text", AStr t)] n
    = Ok (mkSegment CSegment (mkAnnotation (fresh_id n) l [] ∅) sp t, S n) /\
    get_snippet (mkSegment CSegment (mkAnnotation (fresh_id n) l [] ∅) [] t)
                doc max_extend_length
    = Raise (ValueError "min() arg is an empty sequence").
Proof. intros. split; reflexivity. Qed.

(** ** More on [get_snippet] *)

Lemma get_snippet_plain_value (seg : Segment) (doc : TextDocument) (m : Z)
    (s0 : Span.t) (rest : list Span.t) :
  spans seg = map ASpan (s0 :: rest) ->
  Forall ordered (s0 :: rest) ->
  get_snippet seg doc m
  = Ok (py_slice (TextDocument_text doc)
          (Z.max (bounding_start s0 rest - m / 2) 0)
          (Z.min (bounding_end s0 rest
                  + (m - (bounding_start s0 rest
                          - Z.max (bounding_start s0 rest - m / 2) 0)))
                 (len (TextDocument_text doc)))).
Proof.
  intros Hspans Hord.
  destruct (bounding_range_normalized s0 rest Hord)
    as (m0 & mrest & Hmerge & Hmin & Hmax).
  unfold get_snippet. rewrite Hspans, normalize_spans_plain, Hmerge.
  rewrite (comprehension_plain "start" Span.start) by reflexivity.
  rewrite (comprehension_plain "end" Span.end_) by reflexivity.
  cbn [map mbind result_bind]. rewrite py_min_cons, py_max_cons.
  cbn [mbind result_bind]. rewrite Hmin, Hmax. reflexivity.
Qed.

Lemma within_ordered (n : Z) (l : list Span.t) :
  Forall (within n) l -> Forall ordered l.
Proof.
  intros H. eapply Forall_impl; [exact H|].
  unfold within, ordered. intros; lia.
Qed.

Lemma substring_app (n m1 m2 : nat) (s : string) :
  (n + m1 + m2 <= String.length s)%nat ->
  substring n (m1 + m2) s = substring n m1 s +:+ substring (n + m1) m2 s.
Proof.
  revert n m1. induction s as [|c s IH]; intros n m1 Hle; simpl in Hle.
  - assert (n = 0 /\ m1 = 0 /\ m2 = 0)%nat as (-> & -> & ->) by lia.
    reflexivity.
  - destruct n as [|n].
    + destruct m1 as [|m1]; [reflexivity|].
      change (String c (substring 0 (m1 + m2) s)
              = String c (substring 0 m1 s +:+ substring (0 + m1) m2 s)).
      f_equal. apply (IH 0%nat m1). simpl. lia.
    + cbn [Nat.add substring]. apply IH. lia.
Qed.

Lemma py_slice_in_range (s : string) (a b : Z) :
  0 <= a -> a <= b -> b <= len s ->
  py_slice s a b = substring (Z.to_nat a) (Z.to_nat (b - a)) s.
Proof.
  intros Ha Hab Hb. unfold py_slice, clamp_index.
  destruct (Z.ltb_spec a 0); [lia|]. destruct (Z.ltb_spec b 0); [lia|].
  rewrite !Z.min_l by lia. reflexivity.
Qed.

Lemma py_slice_app (s : string) (a b c : Z) :
  0 <= a -> a <= b -> b <= c -> c <= len s ->
  py_slice s a c = py_slice s a b +:+ py_slice s b c.
Proof.
  intros Ha Hab Hbc Hc.
  rewrite !py_slice_in_range by lia.
  replace (Z.to_nat (c - a)) with (Z.to_nat (b - a) + Z.to_nat (c - b))%nat
    by lia.
  replace (Z.to_nat b) with (Z.to_nat a + Z.to_nat (b - a))%nat by lia.
  apply substring_app. unfold len in Hc. lia.
Qed.

Lemma substring_all (s : string) : substring 0 (String.length s) s = s.
Proof. induction s as [|c s IH]; simpl; [reflexivity|]. f_equal. exact IH. Qed.

Lemma py_slice_all (s : string) : py_slice s 0 (len s) = s.
Proof.
  unfold len. rewrite py_slice_in_range by (unfold len; lia).
  rewrite Z.sub_0_r, Nat2Z.id. apply substring_all.
Qed.

(** X7.  For a segment of plain spans inside the document text and a
    length [max_extend_length >= 0], the snippet is the text of the
    bounding range of the segment with some text before and after it: at
    most [max_extend_length // 2] characters before, and before and after
    together at most [max_extend_length] characters. *)
Theorem get_snippet_surrounds_bounding_text :
  forall (seg : Segment) (doc : TextDocument) (max_extend_length : Z)
         (s0 : Span.t) (rest : list Span.t),
    spans seg = map ASpan (s0 :: rest) ->
    Forall (within (len (TextDocument_text doc))) (s0 :: rest) ->
    0 <= max_extend_length ->
    exists before after : string,
      get_snippet seg doc max_extend_length
      = Ok (before
            +:+ py_slice (TextDocument_text doc) (bounding_start s0 rest)
                         (bounding_end s0 rest)
            +:+ after) /\
      len before <= max_extend_length / 2 /\
      len before + len after <= max_extend_length /\
      len (py_slice (TextDocument_text doc) (bounding_start s0 rest)
                    (bounding_end s0 rest))
      = bounding_end s0 rest - bounding_start s0 rest.
Proof.
  intros seg doc m s0 rest Hspans Hin Hm.
  destruct (bounding_range_within _ s0 rest Hin) as (Hlo & Hmid & Hhi).
  assert (Hhalf : 0 <= m / 2 <= m).
  { split; [apply Z.div_pos; lia|]. apply Z.div_le_upper_bound; lia. }
  set (start := bounding_start s0 rest) in *.
  set (end_ := bounding_end s0 rest) in *.
  set (txt := TextDocument_text doc) in *.
  set (se := Z.max (start - m / 2) 0).
  set (ee := Z.min (end_ + (m - (start - se))) (len txt)).
  assert (Hse : 0 <= se <= start) by (unfold se; lia).
  assert (Hee : end_ <= ee <= len txt) by (unfold ee, se; lia).
  exists (py_slice txt se start), (py_slice txt end_ ee).
  rewrite (get_snippet_plain_value seg doc m s0 rest Hspans
             (within_ordered _ _ Hin)).
  fold start end_ txt se ee.
  rewrite (py_slice_app txt se start ee) by lia.
  rewrite (py_slice_app txt start end_ ee) by lia.
  rewrite !py_slice_length by lia.
  split; [reflexivity|]. unfold ee, se in *. lia.
Qed.

Lemma get_snippet_surrounds_bounding_text_witness :
  spans head_segment = map ASpan [Span.mk 1 3; Span.mk 3 4] /\
  Forall (within (len (TextDocument_text ten_chars_doc)))
         [Span.mk 1 3; Span.mk 3 4] /\
  0 <= 4 /\
  exists before after : string,
    get_snippet head_segment ten_chars_doc 4
    = Ok (before +:+ "123" +:+ after) /\
    len before <= 2 /\ len before + len after <= 4.
Proof.
  split; [reflexivity|].
  split; [repeat constructor; vm_compute; discriminate|].
  split; [lia|].
  destruct (get_snippet_surrounds_bounding_text head_segment ten_chars_doc 4
              (Span.mk 1 3) [Span.mk 3 4])
    as (before & after & Hw & Hb & Hba & _).
  - reflexivity.
  - repeat constructor; vm_compute; discriminate.
  - lia.
  - exists before, after. split; [exact Hw|]. split; [exact Hb|exact Hba].
Defined.

(** X8.  The two extremes of [get_snippet], for a segment of plain spans
    inside the document text.  With [max_extend_length = 0] the snippet is
    exactly the text of the bounding range.  When the length covers twice
    what precedes the bounding range and, after that, what follows it, the
    snippet is the whole document text. *)
Theorem get_snippet_extremes :
  forall (seg : Segment) (doc : TextDocument) (max_extend_length : Z)
         (s0 : Span.t) (rest : list Span.t),
    spans seg = map ASpan (s0 :: rest) ->
    Forall (within (len (TextDocument_text doc))) (s0 :: rest) ->
    get_snippet seg doc 0
    = Ok (py_slice (TextDocument_text doc) (bounding_start s0 rest)
                   (bounding_end s0 rest)) /\
    (2 * bounding_start s0 rest <= max_extend_length ->
     len (TextDocument_text doc) - bounding_end s0 rest
     + bounding_start s0 rest <= max_extend_length ->
     get_snippet seg doc max_extend_length = Ok (TextDocument_text doc)).
Proof.
  intros seg doc m s0 rest Hspans Hin.
  destruct (bounding_range_within _ s0 rest Hin) as (Hlo & Hmid & Hhi).
  pose proof (within_ordered _ _ Hin) as Hord.
  split.
  - rewrite (get_snippet_plain_value seg doc 0 s0 rest Hspans Hord).
    f_equal. f_equal; change (0 / 2) with 0; lia.
  - intros Hbefore Hafter.
    rewrite (get_snippet_plain_value seg doc m s0 rest Hspans Hord).
    assert (Hhalf : bounding_start s0 rest <= m / 2)
      by (apply Z.div_le_lower_bound; lia).
    replace (Z.max (bounding_start s0 rest - m / 2) 0) with 0 by lia.
    rewrite Z.min_r by lia. f_equal. apply py_slice_all.
Qed.

Lemma get_snippet_extremes_witness :
  spans head_segment = map ASpan [Span.mk 1 3; Span.mk 3 4] /\
  Forall (within (len (TextDocument_text ten_chars_doc)))
         [Span.mk 1 3; Span.mk 3 4] /\
  get_snippet head_segment ten_chars_doc 0 = Ok "123" /\
  get_snippet head_segment ten_chars_doc 7 = Ok "0123456789".
Proof.
  split; [reflexivity|].
  split; [repeat constructor; vm_compute; discriminate|].
  destruct (get_snippet_extremes head_segment ten_chars_doc 7
              (Span.mk 1 3) [Span.mk 3 4]) as (Hzero & Hall).
  - reflexivity.
  - repeat constructor; vm_compute; discriminate.
  - split; [exact Hzero|]. apply Hall; vm_compute; discriminate.
Defined.

(** X9.  A longer [max_extend_length] never loses text: for a segment of
    plain spans inside the document text and [0 <= m1 <= m2], the snippet
    for [m1] is contained in the snippet for [m2]. *)
Theorem get_snippet_monotone :
  forall (seg : Segment) (doc : TextDocument) (m1 m2 : Z)
         (s0 : Span.t) (rest : list Span.t),
    spans seg = map ASpan (s0 :: rest) ->
    Forall (within (len (TextDocument_text doc))) (s0 :: rest) ->
    0 <= m1 -> m1 <= m2 ->
    exists w1 before after : string,
      get_snippet seg doc m1 = Ok w1 /\
      get_snippet seg doc m2 = Ok (before +:+ w1 +:+ after).
Proof.
  intros seg doc m1 m2 s0 rest Hspans Hin Hm1 Hm12.
  destruct (bounding_range_within _ s0 rest Hin) as (Hlo & Hmid & Hhi).
  pose proof (within_ordered _ _ Hin) as Hord.
  rewrite (get_snippet_plain_value seg doc m1 s0 rest Hspans Hord).
  rewrite (get_snippet_plain_value seg doc m2 s0 rest Hspans Hord).
  set (start := bounding_start s0 rest) in *.
  set (end_ := bounding_end s0 rest) in *.
  set (txt := TextDocument_text doc) in *.
  assert (Hdiv : m1 / 2 <= m2 / 2) by (apply Z.div_le_mono; lia).
  assert (Hd1 : 0 <= m1 / 2) by (apply Z.div_pos; lia).
  assert (Hu1 : 2 * (m1 / 2) <= m1 <= 2 * (m1 / 2) + 1).
  { pose proof (Z.div_mod m1 2 ltac:(lia)) as E.
    pose proof (Z.mod_pos_bound m1 2 ltac:(lia)). lia. }
  assert (Hu2 : 2 * (m2 / 2) <= m2 <= 2 * (m2 / 2) + 1).
  { pose proof (Z.div_mod m2 2 ltac:(lia)) as E.
    pose proof (Z.mod_pos_bound m2 2 ltac:(lia)). lia. }
  set (se1 := Z.max (start - m1 / 2) 0).
  set (se2 := Z.max (start - m2 / 2) 0).
  set (ee1 := Z.min (end_ + (m1 - (start - se1))) (len txt)).
  set (ee2 := Z.min (end_ + (m2 - (start - se2))) (len txt)).
  assert (H1 : 0 <= se2 <= se1) by (unfold se1, se2; lia).
  assert (H2 : se1 <= ee1) by (unfold ee1, se1; lia).
  assert (H3 : ee1 <= ee2 <= len txt) by (unfold ee1, ee2, se1, se2; lia).
  exists (py_slice txt se1 ee1), (py_slice txt se2 se1), (py_slice txt ee1 ee2).
  split; [reflexivity|].
  rewrite (py_slice_app txt se2 se1 ee2) by lia.
  rewrite (py_slice_app txt se1 ee1 ee2) by lia.
  reflexivity.
Qed.

Lemma get_snippet_monotone_witness :
  spans head_segment = map ASpan [Span.mk 1 3; Span.mk 3 4] /\
  Forall (within (len (TextDocument_text ten_chars_doc)))
         [Span.mk 1 3; Span.mk 3 4] /\
  0 <= 2 /\ 2 <= 4 /\
  exists w1 before after : string,
    get_snippet head_segment ten_chars_doc 2 = Ok w1 /\
    get_snippet head_segment ten_chars_doc 4 = Ok (before +:+ w1 +:+ after).
Proof.
  split; [reflexivity|].
  split; [repeat constructor; vm_compute; discriminate|].
  split; [lia|]. split; [lia|].
  apply (get_snippet_monotone head_segment ten_chars_doc 2 4
           (Span.mk 1 3) [Span.mk 3 4]).
  - reflexivity.
  - repeat constructor; vm_compute; discriminate.
  - lia.
  - lia.
Defined.

(** ** Loading a document *)


(** [from_dict] constructs with the constructor of the class it is called
    on: for a subclass whose own [__init__] takes the four keywords and
    builds a document without calling the constructor of [Segment], it
    returns that document. *)
Example TextDocument_from_dict_uses_constructor_of_cls :
  let sub_init (kw : kwargs) : M TextDocument :=
    a ← lift (bind_kwargs TextDocument_sig kw);
    uid ← lift (as_str "uid" (param a "uid"));
    metadata ← lift (as_meta "metadata" (param a "metadata"));
    mret (mkTextDocument uid metadata
            (mkSegment CSegment (mkAnnotation "r" RAW_LABEL [] ∅) []
                       EmptyString)
            (mkContainer uid ∅ ∅)) in
  exists doc : TextDocument,
    TextDocument_from_dict
      (fun _ => lift (Raise (KeyError "class_name"))) ∅ "Sub" sub_init
      false hello_document_dict 0%nat = Ok (doc, 0%nat) /\
    doc_uid doc = "d1".
Proof. eexists. split; [vm_compute; reflexivity|reflexivity]. Qed.



(** ** Serialising a relation *)

Lemma Relation_to_dict_lookups (r : Relation) :
  Relation_to_dict r !! "source_id" = Some (VStr (source_id r)) /\
  Relation_to_dict r !! "target_id" = Some (VStr (target_id r)) /\
  Relation_to_dict r !! "uid" = Some (VStr (uid (rel_ann r))) /\
  Relation_to_dict r !! "label" = Some (VStr (label (rel_ann r))) /\
  Relation_to_dict r !! "attrs"
  = Some (VList (map (fun a => VDict (Attribute_to_dict a))
                     (attrs (rel_ann r)))) /\
  Relation_to_dict r !! "metadata" = Some (VDict (metadata (rel_ann r))) /\
  Relation_to_dict r !! class_name_key = Some (VStr Relation_class).
Proof. destruct r as [[u l a m] s t]. repeat split; reflexivity. Qed.

Lemma serialised_attrs_inj (l1 l2 : list Attribute) :
  map (fun a => VDict (Attribute_to_dict a)) l1
  = map (fun a => VDict (Attribute_to_dict a)) l2 -> l1 = l2.
Proof.
  revert l2. induction l1 as [|a l1 IH]; intros [|b l2] H;
    try discriminate H; [reflexivity|].
  cbn [map] in H.
  pose proof (f_equal (fun l => match l with
                                | VDict d :: _ => d
                                | _ => ∅
                                end) H) as Hab.
  pose proof (f_equal (@List.tl pyval) H) as Hrest.
  cbn [List.tl] in Hab, Hrest.
  f_equal; [apply Attribute_to_dict_inj; exact Hab|apply IH; exact Hrest].
Qed.

(** X11.  [Relation.to_dict] adds [source_id] and [target_id] to the
    entries of the annotation without overwriting any of them, and the
    dict determines the relation: two relations with the same dict have
    the same endpoints, uid, label, attributes and metadata. *)
Theorem Relation_to_dict_injective :
  forall r1 r2 : Relation,
    dom (Relation_to_dict r1)
    = ({[ "class_name"; "uid"; "label"; "attrs"; "metadata";
          "source_id"; "target_id" ]} : gset string) /\
    (Relation_to_dict r1 = Relation_to_dict r2 -> r1 = r2).
Proof.
  intros r1 r2. split.
  - unfold Relation_to_dict, Annotation_to_dict, add_class_name_to_data_dict,
      class_name_key.
    rewrite !dom_insert_L. cbn [list_to_map foldr].
    rewrite !dom_insert_L, dom_empty_L. set_solver.
  - intros H.
    destruct (Relation_to_dict_lookups r1) as (Hs & Ht & Hu & Hl & Ha & Hm & _).
    destruct (Relation_to_dict_lookups r2)
      as (Hs' & Ht' & Hu' & Hl' & Ha' & Hm' & _).
    rewrite H in Hs, Ht, Hu, Hl, Ha, Hm.
    destruct r1 as [[u1 l1 a1 m1] s1 t1], r2 as [[u2 l2 a2 m2] s2 t2].
    simpl in *.
    assert (a1 = a2) by (apply serialised_attrs_inj; congruence).
    congruence.
Qed.

(** ** The doccano dataclasses *)

Lemma stored_by_id_lookup {A} (id : A -> Z) (l : list A) (acc : gmap Z A)
    (i : Z) :
  stored_by_id id acc l !! i
  = match last (filter (fun x => id x = i) l) with
    | Some x => Some x
    | None => acc !! i
    end.
Proof.
  revert acc. induction l as [|x l IH]; intros acc; [reflexivity|].
  unfold stored_by_id in *. cbn [foldl]. rewrite IH.
  rewrite filter_cons. destruct (decide (id x = i)) as [Hx|Hx].
  - rewrite last_cons. destruct (last (filter _ l)); [reflexivity|].
    rewrite <- Hx. apply lookup_insert_eq.
  - destruct (last (filter _ l)); [reflexivity|].
    apply lookup_insert_ne. exact Hx.
Qed.

Lemma stored_by_id_size_le {A} (id : A -> Z) (l : list A) (acc : gmap Z A) :
  (size (stored_by_id id acc l) <= size acc + length l)%nat.
Proof.
  revert acc. induction l as [|x l IH]; intros acc; [simpl; lia|].
  unfold stored_by_id in *. cbn [foldl length].
  etransitivity; [apply IH|]. rewrite map_size_insert.
  destruct (acc !! id x); simpl; lia.
Qed.

Lemma stored_by_id_size {A} (id : A -> Z) (l : list A) (acc : gmap Z A) :
  NoDup (id <$> l) ->
  (forall x, x ∈ l -> acc !! id x = None) ->
  size (stored_by_id id acc l) = (size acc + length l)%nat.
Proof.
  revert acc. induction l as [|x l IH]; intros acc Hnd Hfresh; [simpl; lia|].
  unfold stored_by_id in *. cbn [foldl length].
  rewrite fmap_cons in Hnd. apply NoDup_cons in Hnd as [Hx Hnd].
  rewrite IH.
  - rewrite map_size_insert_None by (apply Hfresh; left). lia.
  - exact Hnd.
  - intros y Hy. rewrite lookup_insert_ne.
    + apply Hfresh. right. exact Hy.
    + intros Heq. apply Hx. rewrite Heq. apply list_elem_of_fmap_2. exact Hy.
Qed.

Lemma DoccanoEntity_decode (e : DoccanoEntity) :
  call_with_mapping "DoccanoEntity" DoccanoEntity_new (encode_entity e)
  = Done e.
Proof. destruct e. reflexivity. Qed.

Lemma DoccanoRelation_decode (r : DoccanoRelation) :
  call_with_mapping "DoccanoRelation" DoccanoRelation_new (encode_relation r)
  = Done r.
Proof. destruct r. reflexivity. Qed.

Lemma DoccanoEntityTuple_decode (t : DoccanoEntityTuple) :
  call_with_sequence "DoccanoEntityTuple" DoccanoEntityTuple_new
    (encode_tuple t) = Done t.
Proof. destruct t. reflexivity. Qed.

Lemma collect_by_id_decoded {A} (callee : string)
    (new : list pyarg -> kwargs -> result A) (id : A -> Z)
    (enc : A -> pyval) (l : list A) (acc : gmap Z A) :
  (forall x, call_with_mapping callee new (enc x) = Done x) ->
  collect_by_id callee new id acc (enc <$> l) = Done (stored_by_id id acc l).
Proof.
  intros Hdec. revert acc. induction l as [|x l IH]; intros acc; [reflexivity|].
  cbn [fmap list_fmap collect_by_id]. rewrite Hdec.
  cbn [mbind attempt_bind]. apply IH.
Qed.

(** X12.  [DoccanoDocRelationExtraction.from_dict] on a well-formed line:
    the text is the entry of the text column, and the entities and the
    relations are stored under their [id].  An identifier that occurs
    twice keeps the last annotation only, so there are at most as many
    entries as annotations, and exactly as many when the identifiers are
    distinct. *)
Theorem DoccanoDocRelationExtraction_from_dict_loads :
  forall (d : gmap string pyval) (column_text text : string)
         (es : list DoccanoEntity) (rs : list DoccanoRelation)
         (i : option Z) (m : gmap string pyval),
    get_id d = Ok i ->
    d !! column_text = Some (VStr text) ->
    get_metadata d = Ok m ->
    d !! "entities" = Some (VList (encode_entity <$> es)) ->
    d !! "relations" = Some (VList (encode_relation <$> rs)) ->
    DoccanoDocRelationExtraction_from_dict d column_text
    = Done (mkDoccanoDocRelationExtraction i text
              (stored_by_id de_id ∅ es) (stored_by_id dr_id ∅ rs) m) /\
    (forall k, stored_by_id de_id ∅ es !! k
               = last (filter (fun e => de_id e = k) es)) /\
    (forall k, stored_by_id dr_id ∅ rs !! k
               = last (filter (fun r => dr_id r = k) rs)) /\
    (size (stored_by_id de_id ∅ es) <= length es)%nat /\
    (NoDup (de_id <$> es) -> size (stored_by_id de_id ∅ es) = length es).
Proof.
  intros d col text es rs i m Hid Htext Hmeta Hes Hrs.
  split; [|split; [|split; [|split]]].
  - unfold DoccanoDocRelationExtraction_from_dict, getitem.
    rewrite Hid, Htext, Hmeta, Hes, Hrs.
    cbn [of_result mbind attempt_bind result_bind as_text as_list].
    rewrite (collect_by_id_decoded _ _ _ encode_entity)
      by apply DoccanoEntity_decode.
    cbn [mbind attempt_bind].
    rewrite (collect_by_id_decoded _ _ _ encode_relation)
      by apply DoccanoRelation_decode.
    reflexivity.
  - intros k. rewrite stored_by_id_lookup.
    destruct (last _); [reflexivity|apply lookup_empty].
  - intros k. rewrite stored_by_id_lookup.
    destruct (last _); [reflexivity|apply lookup_empty].
  - pose proof (stored_by_id_size_le de_id es ∅) as H.
    rewrite map_size_empty in H. exact H.
  - intros Hnd. rewrite stored_by_id_size; [rewrite map_size_empty; lia|exact Hnd|].
    intros x _. apply lookup_empty.
Qed.

Lemma DoccanoDocRelationExtraction_from_dict_loads_witness :
  get_id relation_extraction_line = Ok None /\
  relation_extraction_line !! "text" = Some (VStr "medkit was created in 2022") /\
  get_metadata relation_extraction_line = Ok ∅ /\
  relation_extraction_line !! "entities"
  = Some (VList (encode_entity <$> medkit_entities)) /\
  relation_extraction_line !! "relations"
  = Some (VList (encode_relation <$> medkit_relations)) /\
  DoccanoDocRelationExtraction_from_dict relation_extraction_line "text"
  = Done (mkDoccanoDocRelationExtraction None "medkit was created in 2022"
            (stored_by_id de_id ∅ medkit_entities)
            (stored_by_id dr_id ∅ medkit_relations) ∅).
Proof.
  repeat (split; [reflexivity|]).
  apply (DoccanoDocRelationExtraction_from_dict_loads relation_extraction_line
           "text" "medkit was created in 2022" medkit_entities
           medkit_relations None ∅); reflexivity.
Defined.

(** X13.  The keys [DoccanoDocRelationExtraction.from_dict] needs: without
    the text column the call fails with its [KeyError] before anything
    else is read; with it, a line without [entities] fails with
    [KeyError('entities')], and a line whose entities load but that has no
    [relations] fails with [KeyError('relations')]. *)
Theorem DoccanoDocRelationExtraction_from_dict_missing_key :
  forall (d : gmap string pyval) (column_text : string) (i : option Z),
    get_id d = Ok i ->
    (d !! column_text = None ->
     DoccanoDocRelationExtraction_from_dict d column_text
     = Fail (Core (KeyError column_text))) /\
    (forall (text : string) (m : gmap string pyval),
        d !! column_text = Some (VStr text) -> get_metadata d = Ok m ->
        d !! "entities" = None ->
        DoccanoDocRelationExtraction_from_dict d column_text
        = Fail (Core (KeyError "entities"))) /\
    (forall (text : string) (m : gmap string pyval) (es : list DoccanoEntity),
        d !! column_text = Some (VStr text) -> get_metadata d = Ok m ->
        d !! "entities" = Some (VList (encode_entity <$> es)) ->
        d !! "relations" = None ->
        DoccanoDocRelationExtraction_from_dict d column_text
        = Fail (Core (KeyError "relations"))).
Proof.
  intros d col i Hid. split; [|split].
  - intros Htext. unfold DoccanoDocRelationExtraction_from_dict, getitem.
    rewrite Hid, Htext. reflexivity.
  - intros text m Htext Hmeta Hes.
    unfold DoccanoDocRelationExtraction_from_dict, getitem.
    rewrite Hid, Htext, Hmeta, Hes. reflexivity.
  - intros text m es Htext Hmeta Hes Hrs.
    unfold DoccanoDocRelationExtraction_from_dict, getitem.
    rewrite Hid, Htext, Hmeta, Hes, Hrs.
    cbn [of_result mbind attempt_bind result_bind as_text as_list].
    rewrite (collect_by_id_decoded _ _ _ encode_entity)
      by apply DoccanoEntity_decode.
    reflexivity.
Qed.

Lemma DoccanoDocRelationExtraction_from_dict_missing_key_witness :
  get_id relation_extraction_line = Ok None /\
  relation_extraction_line !! "content" = None /\
  DoccanoDocRelationExtraction_from_dict relation_extraction_line "content"
  = Fail (Core (KeyError "content")).
Proof.
  split; [reflexivity|]. split; [reflexivity|].
  destruct (DoccanoDocRelationExtraction_from_dict_missing_key
              relation_extraction_line "content" None eq_refl) as (H & _).
  apply H. reflexivity.
Defined.





(** X15.  [DoccanoDocSeqLabeling.from_dict] turns each item of the label
    column into one entity, in the order of the column.  An item must have
    exactly three elements: after items that load, an item with more
    makes the call fail with the [TypeError] of too many positional
    arguments, and an item with two elements with the [TypeError] of the
    missing [label]. *)
Theorem DoccanoDocSeqLabeling_from_dict_keeps_order :
  forall (d : gmap string pyval) (column_text column_label text : string)
         (m : gmap string pyval) (ts : list DoccanoEntityTuple),
    d !! column_text = Some (VStr text) ->
    get_metadata d = Ok m ->
    (d !! column_label = Some (VList (encode_tuple <$> ts)) ->
     DoccanoDocSeqLabeling_from_dict d column_text column_label
     = Done (mkDoccanoDocSeqLabeling text ts m)) /\
    (forall (item rest : list pyval),
        d !! column_label
        = Some (VList ((encode_tuple <$> ts) ++ VList item :: rest)) ->
        (3 < length item)%nat ->
        DoccanoDocSeqLabeling_from_dict d column_text column_label
        = Fail (Core (TypeError_too_many_positional
                        "DoccanoEntityTuple.__init__"))) /\
    (forall (x y : pyval) (rest : list pyval),
        d !! column_label
        = Some (VList ((encode_tuple <$> ts) ++ VList [x; y] :: rest)) ->
        DoccanoDocSeqLabeling_from_dict d column_text column_label
        = Fail (Core (TypeError_missing_argument
                        "DoccanoEntityTuple.__init__" "label"))).
Proof.
  intros d ct cl text m ts Htext Hmeta.
  assert (Hprefix : forall bad rest e,
             call_with_sequence "DoccanoEntityTuple" DoccanoEntityTuple_new bad
             = Fail e ->
             attempt_all (call_with_sequence "DoccanoEntityTuple"
                            DoccanoEntityTuple_new)
                         ((encode_tuple <$> ts) ++ bad :: rest) = Fail e).
  { intros bad rest e Hbad. induction ts as [|t ts IH].
    - cbn [fmap list_fmap app attempt_all]. rewrite Hbad. reflexivity.
    - cbn [fmap list_fmap app attempt_all].
      rewrite DoccanoEntityTuple_decode. cbn [mbind attempt_bind].
      rewrite IH. reflexivity. }
  split; [|split].
  - intros Hcol. unfold DoccanoDocSeqLabeling_from_dict, getitem.
    rewrite Htext, Hmeta, Hcol.
    cbn [of_result mbind attempt_bind result_bind as_text as_list].
    assert (Hall : attempt_all (call_with_sequence "DoccanoEntityTuple"
                                  DoccanoEntityTuple_new) (encode_tuple <$> ts)
                   = Done ts).
    { clear. induction ts as [|t ts IH]; [reflexivity|].
      cbn [fmap list_fmap attempt_all]. rewrite DoccanoEntityTuple_decode.
      cbn [mbind attempt_bind]. rewrite IH. reflexivity. }
    rewrite Hall. reflexivity.
  - intros item rest Hcol Hlen.
    unfold DoccanoDocSeqLabeling_from_dict, getitem.
    rewrite Htext, Hmeta, Hcol.
    cbn [of_result mbind attempt_bind result_bind as_text as_list].
    rewrite (Hprefix (VList item) rest
               (Core (TypeError_too_many_positional
                        "DoccanoEntityTuple.__init__"))); [reflexivity|].
    unfold call_with_sequence, DoccanoEntityTuple_new, bind_args.
    cbn [fn_params DoccanoEntityTuple_sig].
    rewrite length_map.
    destruct (Nat.ltb_spec (length ["start_offset"; "end_offset"; "label"])
                           (length item)) as [_|Hge];
      [reflexivity|simpl in Hge; lia].
  - intros x y rest Hcol.
    unfold DoccanoDocSeqLabeling_from_dict, getitem.
    rewrite Htext, Hmeta, Hcol.
    cbn [of_result mbind attempt_bind result_bind as_text as_list].
    rewrite (Hprefix (VList [x; y]) rest
               (Core (TypeError_missing_argument
                        "DoccanoEntityTuple.__init__" "label")));
      reflexivity.
Qed.

Lemma DoccanoDocSeqLabeling_from_dict_keeps_order_witness :
  seq_labeling_line !! "text" = Some (VStr "medkit was created in 2022") /\
  get_metadata seq_labeling_line = Ok ∅ /\
  seq_labeling_line !! "label"
  = Some (VList (encode_tuple <$> [mkDoccanoEntityTuple 0 6 "ORG";
                                   mkDoccanoEntityTuple 22 26 "DATE"])) /\
  DoccanoDocSeqLabeling_from_dict seq_labeling_line "text" "label"
  = Done (mkDoccanoDocSeqLabeling "medkit was created in 2022"
            [mkDoccanoEntityTuple 0 6 "ORG"; mkDoccanoEntityTuple 22 26 "DATE"]
            ∅).
Proof.
  repeat (split; [reflexivity|]).
  destruct (DoccanoDocSeqLabeling_from_dict_keeps_order seq_labeling_line
              "text" "label" "medkit was created in 2022" ∅
              [mkDoccanoEntityTuple 0 6 "ORG"; mkDoccanoEntityTuple 22 26 "DATE"]
              eq_refl eq_refl) as (H & _).
  apply H. reflexivity.
Defined.

(** X16.  [DoccanoDocTextClassification.from_dict] keeps the first label
    of the label column and ignores the others; an empty list of labels
    fails with [IndexError]; and when the column holds a string instead of
    a list, the label is the first character of that string. *)
Theorem DoccanoDocTextClassification_from_dict_first_label :
  forall (d : gmap string pyval) (column_text column_label text : string)
         (m : gmap string pyval),
    d !! column_text = Some (VStr text) ->
    get_metadata d = Ok m ->
    (forall (l : string) (others : list pyval),
        d !! column_label = Some (VList (VStr l :: others)) ->
        DoccanoDocTextClassification_from_dict d column_text column_label
        = Done (mkDoccanoDocTextClassification text l m)) /\
    (d !! column_label = Some (VList []) ->
     DoccanoDocTextClassification_from_dict d column_text column_label
     = Fail (IndexError "list index out of range")) /\
    (forall (c : ascii) (s : string),
        d !! column_label = Some (VStr (String c s)) ->
        DoccanoDocTextClassification_from_dict d column_text column_label
        = Done (mkDoccanoDocTextClassification text (String c EmptyString) m)) /\
    (d !! column_label = None ->
     DoccanoDocTextClassification_from_dict d column_text column_label
     = Fail (Core (KeyError column_label))).
Proof.
  intros d ct cl text m Htext Hmeta.
  repeat split; intros; unfold DoccanoDocTextClassification_from_dict, getitem;
    rewrite Htext, Hmeta; cbn [of_result mbind attempt_bind result_bind as_text];
    match goal with H : d !! cl = _ |- _ => rewrite H end; reflexivity.
Qed.

Lemma DoccanoDocTextClassification_from_dict_first_label_witness :
  text_classification_line !! "text"
  = Some (VStr "medkit was created in 2022") /\
  get_metadata text_classification_line = Ok ∅ /\
  DoccanoDocTextClassification_from_dict text_classification_line "text" "label"
  = Done (mkDoccanoDocTextClassification "medkit was created in 2022"
            "header" ∅).
Proof.
  repeat (split; [reflexivity|]).
  destruct (DoccanoDocTextClassification_from_dict_first_label
              text_classification_line "text" "label"
              "medkit was created in 2022" ∅ eq_refl eq_refl) as (H & _).
  apply (H "header" [VStr "title"]). reflexivity.
Defined.

(** ** [BatchData] *)

Section BatchDataProperties.

Context {tensor device : Type}.
Variable tensor_to : tensor -> device -> tensor.
Variable tensor_getitem : tensor -> Z -> option tensor.

Abbreviation batch := (BatchData tensor).
Abbreviation col := (column tensor).

Lemma odict_getitem_setitem_eq (l : list (string * col)) (k : string) (v : col) :
  odict_getitem tensor (odict_setitem tensor l k v) k = Done v.
Proof.
  induction l as [|[k0 v0] l IH]; simpl.
  - destruct (decide (k = k)); [reflexivity|contradiction].
  - destruct (decide (k0 = k)) as [->|Hne]; simpl.
    + destruct (decide (k = k)); [reflexivity|contradiction].
    + destruct (decide (k0 = k)); [contradiction|exact IH].
Qed.

Lemma odict_getitem_setitem_ne (l : list (string * col)) (k k' : string)
    (v : col) :
  k <> k' ->
  odict_getitem tensor (odict_setitem tensor l k v) k'
  = odict_getitem tensor l k'.
Proof.
  intros Hne. induction l as [|[k0 v0] l IH]; simpl.
  - destruct (decide (k = k')); [contradiction|reflexivity].
  - destruct (decide (k0 = k)) as [->|Hk0]; simpl.
    + destruct (decide (k = k')); [contradiction|reflexivity].
    + destruct (decide (k0 = k')); [reflexivity|exact IH].
Qed.

Lemma odict_setitem_keys (l : list (string * col)) (k : string) (v : col) :
  (odict_setitem tensor l k v).*1
  = if bool_decide (k ∈ l.*1) then l.*1 else l.*1 ++ [k].
Proof.
  induction l as [|[k0 v0] l IH]; [reflexivity|].
  cbn [odict_setitem]. rewrite (fmap_cons fst (k0, v0) l). cbn [fst].
  destruct (decide (k0 = k)) as [->|Hne].
  - rewrite bool_decide_eq_true_2 by (apply elem_of_cons; left; reflexivity).
    reflexivity.
  - rewrite (fmap_cons fst (k0, v0)), IH. cbn [fst].
    destruct (decide (k ∈ l.*1)) as [Hin|Hin].
    + rewrite !bool_decide_eq_true_2;
        [reflexivity|apply elem_of_cons; right; exact Hin|exact Hin].
    + rewrite !bool_decide_eq_false_2; [reflexivity| |exact Hin].
      intros [Heq|H]%elem_of_cons; [congruence|contradiction].
Qed.

Lemma odict_getitem_Done_iff (l : list (string * col)) (k : string) :
  k ∈ l.*1 <-> exists v, odict_getitem tensor l k = Done v.
Proof.
  induction l as [|[k0 v0] l IH]; simpl.
  - split; [intros H; apply elem_of_nil in H; contradiction|].
    intros [v H]. discriminate H.
  - destruct (decide (k0 = k)) as [->|Hne].
    + split; [eauto|]. intros _. left.
    + rewrite <- IH. rewrite elem_of_cons. split; [|auto].
      intros [Heq|H]; [congruence|exact H].
Qed.

Lemma setitem_in_sync (b : batch) (k : string) (v : col) :
  in_sync b ->
  in_sync (mkBatchData tensor (odict_setitem tensor (items tensor b) k v)
                       (<[k := Some v]> (attributes tensor b))).
Proof.
  intros Hsync name. cbn [items attributes].
  destruct (decide (k = name)) as [->|Hne].
  - rewrite lookup_insert_eq, odict_getitem_setitem_eq. reflexivity.
  - rewrite lookup_insert_ne, odict_getitem_setitem_ne by exact Hne.
    apply Hsync.
Qed.

Lemma odict_getitem_not_in (l : list (string * col)) (k : string) :
  k ∉ l.*1 -> odict_getitem tensor l k = Fail (Core (KeyError k)).
Proof.
  intros Hout. destruct (odict_getitem tensor l k) as [v|e] eqn:Hget.
  - exfalso. apply Hout. apply odict_getitem_Done_iff. eauto.
  - clear Hout. induction l as [|[k0 v0] l IH]; simpl in Hget.
    + congruence.
    + destruct (decide (k0 = k)); [discriminate Hget|apply IH; exact Hget].
Qed.

(** X17.  [batch[key] = values] keeps the dict and the attributes in step:
    afterwards both [batch[key]] and [batch.key] are [values]; a new key
    goes to the end of the columns and an existing one keeps its place;
    every other column and attribute reads as before; and if the
    attributes were exactly the columns, they still are. *)
Theorem BatchData_setitem_syncs :
  forall (b : batch) (key : string) (values : col),
    supported_name key = true ->
    exists b',
      BatchData_setitem tensor b key values = Done b' /\
      BatchData_getitem_str tensor b' key = Done values /\
      BatchData_getattr tensor b' key = Done (Some values) /\
      keys tensor b'
      = (if bool_decide (key ∈ keys tensor b) then keys tensor b
         else keys tensor b ++ [key]) /\
      (forall k', k' <> key ->
         BatchData_getitem_str tensor b' k' = BatchData_getitem_str tensor b k' /\
         BatchData_getattr tensor b' k' = BatchData_getattr tensor b k') /\
      (in_sync b -> in_sync b').
Proof.
  intros b key values Hsup.
  eexists. unfold BatchData_setitem. rewrite Hsup. split; [reflexivity|].
  split; [apply odict_getitem_setitem_eq|].
  split.
  { unfold BatchData_getattr. rewrite Hsup. cbn [attributes].
    rewrite lookup_insert_eq. reflexivity. }
  split; [apply odict_setitem_keys|].
  split; [|apply setitem_in_sync].
  intros k' Hne.
  assert (Hget : BatchData_getitem_str tensor
                   (mkBatchData tensor
                      (odict_setitem tensor (items tensor b) key values)
                      (<[key := Some values]> (attributes tensor b))) k'
                 = BatchData_getitem_str tensor b k').
  { unfold BatchData_getitem_str. cbn [items].
    apply odict_getitem_setitem_ne. congruence. }
  split; [exact Hget|].
  unfold BatchData_getattr, BatchData___getattr__.
  destruct (supported_name k'); [|reflexivity].
  cbn [attributes]. rewrite lookup_insert_ne by congruence.
  destruct (attributes tensor b !! k'); [reflexivity|].
  rewrite Hget. unfold keys. cbn [items]. rewrite odict_setitem_keys.
  f_equal.
  assert (Hiff : bool_decide
                   (k' ∈ (if bool_decide (key ∈ (items tensor b).*1)
                          then (items tensor b).*1
                          else (items tensor b).*1 ++ [key]))
                 = bool_decide (k' ∈ (items tensor b).*1)).
  { apply bool_decide_ext.
    destruct (bool_decide (key ∈ (items tensor b).*1)); [reflexivity|].
    rewrite elem_of_app, list_elem_of_singleton. intuition congruence. }
  rewrite Hiff. reflexivity.
Qed.

(** X18.  Assigning an attribute is not assigning a column.
    [batch.name = None] on a column leaves the column in the dict while
    [batch.name] now reads [None].  [batch.name = values] on a name that
    is no column creates the attribute only: [batch.name] reads the
    values and [batch['name']] is a [KeyError].  On a column, a value
    other than [None] does what [batch[name] = values] does. *)
Theorem BatchData_setattr_attribute_only :
  forall (b : batch) (name : string),
    supported_name name = true ->
    (forall c : col,
        BatchData_getitem_str tensor b name = Done c ->
        exists b',
          BatchData_setattr tensor b name None = Done b' /\
          items tensor b' = items tensor b /\
          BatchData_getitem_str tensor b' name = Done c /\
          BatchData_getattr tensor b' name = Done None) /\
    (forall values : col,
        name ∉ keys tensor b ->
        exists b',
          BatchData_setattr tensor b name (Some values) = Done b' /\
          items tensor b' = items tensor b /\
          BatchData_getitem_str tensor b' name = Fail (Core (KeyError name)) /\
          BatchData_getattr tensor b' name = Done (Some values)) /\
    (forall values : col,
        name ∈ keys tensor b ->
        BatchData_setattr tensor b name (Some values)
        = BatchData_setitem tensor b name values).
Proof.
  intros b name Hsup. split; [|split].
  - intros c Hc. eexists. unfold BatchData_setattr. rewrite Hsup.
    split; [reflexivity|]. split; [reflexivity|]. split; [exact Hc|].
    unfold BatchData_getattr. rewrite Hsup. cbn [attributes].
    rewrite lookup_insert_eq. reflexivity.
  - intros values Hout. eexists. unfold BatchData_setattr. rewrite Hsup.
    rewrite bool_decide_eq_false_2 by exact Hout.
    split; [reflexivity|]. split; [reflexivity|].
    split; [apply odict_getitem_not_in; exact Hout|].
    unfold BatchData_getattr. rewrite Hsup. cbn [attributes].
    rewrite lookup_insert_eq. reflexivity.
  - intros values Hin. unfold BatchData_setattr, BatchData_setitem.
    rewrite Hsup. rewrite bool_decide_eq_true_2 by exact Hin. reflexivity.
Qed.

Lemma getitem_int_spec (l : list (string * col)) (index : Z)
    (row : list (string * cell tensor)) :
  attempt_all (fun kv => c ← column_getitem tensor tensor_getitem kv.2 index;
                         Done (kv.1, c)) l = Done row
  <-> Forall2 (row_of tensor_getitem index) l row.
Proof.
  revert row. induction l as [|[k v] l IH]; intros row.
  - cbn [attempt_all]. split.
    + intros H. injection H as <-. constructor.
    + intros H. inversion H. reflexivity.
  - cbn [attempt_all fst snd]. split.
    + intros H.
      destruct (column_getitem tensor tensor_getitem v index) as [c|e] eqn:Hc;
        [|discriminate H].
      cbn [mbind attempt_bind] in H.
      destruct (attempt_all _ l) as [row'|e] eqn:Hrow; [|discriminate H].
      cbn [mbind attempt_bind] in H. injection H as <-.
      constructor; [split; [reflexivity|exact Hc]|].
      apply IH. reflexivity.
    + intros H. inversion H as [|? [k' c] ? row' [Hk Hc] Hrest]; subst.
      cbn [fst snd] in Hk, Hc. subst k'. rewrite Hc.
      cbn [mbind attempt_bind].
      apply IH in Hrest. rewrite Hrest. reflexivity.
Qed.

(** X19.  Row access and column access agree.  [batch[index]] returns a
    row exactly when every column can be indexed at [index]; the row then
    has the keys of the batch in their order, and under each key the
    element of that column at [index]: [batch[index][key]] is
    [batch[key][index]]. *)
Theorem BatchData_row_agrees_with_columns :
  forall (b : batch) (index : Z) (row : list (string * cell tensor)),
    (BatchData_getitem_int tensor tensor_getitem b index = Done row
     <-> Forall2 (row_of tensor_getitem index) (items tensor b) row) /\
    (BatchData_getitem_int tensor tensor_getitem b index = Done row ->
     row.*1 = keys tensor b /\
     forall (key : string) (values : col),
       BatchData_getitem_str tensor b key = Done values ->
       exists c, column_getitem tensor tensor_getitem values index = Done c /\
                 (key, c) ∈ row).
Proof.
  intros b index row. unfold BatchData_getitem_int.
  split; [apply getitem_int_spec|].
  intros H. apply getitem_int_spec in H.
  unfold keys, BatchData_getitem_str. revert H.
  generalize (items tensor b). intros l H.
  induction H as [|[k v] [k' c] l row [Hk Hc] Hrest [IHk IHv]];
    cbn [fst snd] in *.
  - split; [reflexivity|]. intros key values Hget. discriminate Hget.
  - subst k'. split; [rewrite !fmap_cons, IHk; reflexivity|].
    intros key values Hget. cbn [odict_getitem] in Hget.
    destruct (decide (k = key)) as [->|Hne].
    + injection Hget as <-. exists c. split; [exact Hc|left].
    + destruct (IHv key values Hget) as (c' & Hc' & Hin).
      exists c'. split; [exact Hc'|right; exact Hin].
Qed.

Lemma odict_setitem_new (l : list (string * col)) (k : string) (v : col) :
  k ∉ l.*1 -> odict_setitem tensor l k v = l ++ [(k, v)].
Proof.
  induction l as [|[k0 v0] l IH]; intros Hout; [reflexivity|].
  cbn [odict_setitem]. rewrite fmap_cons in Hout. cbn [fst] in Hout.
  apply not_elem_of_cons in Hout as [Hne Hout].
  destruct (decide (k0 = k)); [congruence|].
  rewrite IH by exact Hout. reflexivity.
Qed.

Lemma to_device_loop_spec (dev : device) (l : list (string * col))
    (acc : batch) :
  Forall (fun k => supported_name k = true) l.*1 ->
  NoDup ((items tensor acc).*1 ++ l.*1) ->
  in_sync acc ->
  exists b',
    to_device_loop tensor device tensor_to dev acc l = Done b' /\
    items tensor b'
    = items tensor acc
      ++ map (fun kv => (kv.1, to_device_value tensor device tensor_to dev kv.2)) l /\
    in_sync b'.
Proof.
  revert acc. induction l as [|[k v] l IH]; intros acc Hsup Hnd Hsync.
  - exists acc. cbn [to_device_loop map]. rewrite app_nil_r. auto.
  - rewrite fmap_cons in Hsup, Hnd. cbn [fst] in Hsup, Hnd.
    apply Forall_cons in Hsup as [Hk Hsup].
    cbn [to_device_loop]. unfold BatchData_setitem. rewrite Hk.
    cbn [mbind attempt_bind].
    assert (Hout : k ∉ (items tensor acc).*1).
    { apply NoDup_app in Hnd as (_ & Hdisj & _).
      intros Hin. apply (Hdisj k Hin). left. }
    rewrite odict_setitem_new by exact Hout.
    edestruct (IH (mkBatchData tensor
                     (items tensor acc
                      ++ [(k, to_device_value tensor device tensor_to dev v)])
                     (<[k := Some (to_device_value tensor device tensor_to dev v)]>
                        (attributes tensor acc))))
      as (b' & Hloop & Hitems & Hsync').
    + exact Hsup.
    + cbn [items]. rewrite fmap_app, <- app_assoc. exact Hnd.
    + rewrite <- (odict_setitem_new _ _ _ Hout). apply setitem_in_sync.
      exact Hsync.
    + exists b'. split; [exact Hloop|]. split; [|exact Hsync'].
      rewrite Hitems. cbn [items map fst snd]. rewrite <- app_assoc.
      reflexivity.
Qed.

(** X20.  [to_device] returns a new batch with the same keys in the same
    order; a list column is kept as it is and a tensor column is moved to
    the device.  The attributes of the new batch are exactly its columns,
    whatever attributes the original had. *)
Theorem BatchData_to_device_keeps_columns :
  forall (b : batch) (dev : device),
    Forall (fun k => supported_name k = true) (keys tensor b) ->
    NoDup (keys tensor b) ->
    exists b',
      BatchData_to_device tensor device tensor_to b dev = Done b' /\
      items tensor b'
      = map (fun kv => (kv.1, to_device_value tensor device tensor_to dev kv.2))
            (items tensor b) /\
      keys tensor b' = keys tensor b /\
      in_sync b'.
Proof.
  intros b dev Hsup Hnd.
  destruct (to_device_loop_spec dev (items tensor b)
              (BatchData_empty tensor)) as (b' & Hloop & Hitems & Hsync).
  - exact Hsup.
  - exact Hnd.
  - intros name. reflexivity.
  - exists b'. split; [exact Hloop|]. split; [exact Hitems|].
    split; [|exact Hsync].
    unfold keys. rewrite Hitems. cbn [items BatchData_empty app].
    rewrite <- list_fmap_compose. reflexivity.
Qed.

End BatchDataProperties.

Lemma BatchData_setitem_syncs_witness :
  supported_name "mask" = true /\
  exists b',
    BatchData_setitem Z toy_batch "mask" (TensorColumn Z 7) = Done b' /\
    BatchData_getitem_str Z b' "mask" = Done (TensorColumn Z 7) /\
    BatchData_getattr Z b' "mask" = Done (Some (TensorColumn Z 7)) /\
    keys Z b' = ["input_ids"; "labels"; "mask"].
Proof.
  split; [reflexivity|].
  destruct (BatchData_setitem_syncs (tensor := Z) toy_batch "mask"
              (TensorColumn Z 7) eq_refl)
    as (b' & Hset & Hitem & Hattr & Hkeys & _).
  exists b'. repeat split; assumption.
Defined.

Lemma BatchData_setattr_attribute_only_witness :
  supported_name "labels" = true /\
  BatchData_getitem_str Z toy_batch "labels"
  = Done (ListColumn Z [VStr "O"; VStr "B-corporation"]) /\
  exists b',
    BatchData_setattr Z toy_batch "labels" None = Done b' /\
    BatchData_getitem_str Z b' "labels"
    = Done (ListColumn Z [VStr "O"; VStr "B-corporation"]) /\
    BatchData_getattr Z b' "labels" = Done None.
Proof.
  split; [reflexivity|]. split; [reflexivity|].
  destruct (BatchData_setattr_attribute_only (tensor := Z) toy_batch "labels"
              eq_refl) as (Hnone & _).
  destruct (Hnone (ListColumn Z [VStr "O"; VStr "B-corporation"]) eq_refl)
    as (b' & Hset & _ & Hitem & Hattr).
  exists b'. repeat split; assumption.
Defined.

Lemma BatchData_to_device_keeps_columns_witness :
  Forall (fun k => supported_name k = true) (keys Z toy_batch) /\
  NoDup (keys Z toy_batch) /\
  exists b',
    BatchData_to_device Z unit (fun t _ => t) toy_batch tt = Done b' /\
    keys Z b' = ["input_ids"; "labels"] /\
    in_sync b'.
Proof.
  assert (Hsup : Forall (fun k => supported_name k = true) (keys Z toy_batch))
    by (repeat constructor).
  assert (Hnd : NoDup (keys Z toy_batch)).
  { refine (bool_decide_unpack _ _). vm_compute. exact I. }
  split; [exact Hsup|]. split; [exact Hnd|].
  destruct (BatchData_to_device_keeps_columns (tensor := Z) (device := unit)
              (fun t _ => t) toy_batch tt Hsup Hnd)
    as (b' & Hdev & _ & Hkeys & Hsync).
  exists b'. repeat split; assumption.
Defined.
